(** * Feedback pipeline of the amendment feedback backend

    A shallow embedding of the request-processing code of the backend
    variants under [backend/]: the toxicity gate, the sentiment
    classifiers, the summarizers and the feedback endpoints, together
    with the properties the specification states about them.

    Python values are modelled as follows.
    - [str] is a list of characters; a character is a code point in the
      range 0..255, so the texts covered are the Python strings over the
      Latin-1 range.
    - [float] is a binary64 primitive float, as Python's.
    - A call that may raise returns a [result]; [try]/[except] is a match
      on it.
    - The external models (Detoxify, DistilBERT, BART) are functions held
      in an environment record: the code treats them as black boxes, and
      every theorem quantifies over them.
    - The database session is a value of type [Db] passed in and out of
      each endpoint; its keys are 64-bit integers, and a query for a key
      outside that range raises.
    - A route validates the request body against its schema before the
      endpoint function runs, and a response model validates the rows
      it is built from. *)

From Stdlib Require Import String Ascii Bool Arith NArith ZArith Lia Floats.
From Stdlib Require Import DecimalString SpecFloat Permutation Sorted List.
Import ListNotations.

Set Warnings "-inexact-float".
Set Implicit Arguments.

(** ** Python strings *)

Module PyStr.

Definition str := list ascii.

(** A string literal of the source. *)
Definition lit (s : string) : str := list_ascii_of_string s.

Definition code (c : ascii) : N := N_of_ascii c.

(** [str.isspace] on one character: the white space of Python in the
    range 0..255 (TAB..CR, FS..US, SPACE, NEL, NBSP). *)
Definition isspace (c : ascii) : bool :=
  let n := code c in
  ((9 <=? n) && (n <=? 13) || (28 <=? n) && (n <=? 32)
   || (n =? 133) || (n =? 160))%N.

(** [str.lower] on one character: A..Z and the Latin-1 capitals
    (U+00C0..U+00DE but the multiplication sign U+00D7) move up by 32. *)
Definition lower_char (c : ascii) : ascii :=
  let n := code c in
  if ((65 <=? n) && (n <=? 90)
      || (192 <=? n) && (n <=? 222) && negb (n =? 215))%N
  then ascii_of_N (n + 32) else c.

Definition lower (s : str) : str := map lower_char s.

(** [s.lstrip()], [s.rstrip()] and [s.strip()] without argument. *)
Fixpoint lstrip (s : str) : str :=
  match s with
  | [] => []
  | c :: s' => if isspace c then lstrip s' else s
  end.

Definition rstrip (s : str) : str := rev (lstrip (rev s)).

Definition strip (s : str) : str := rstrip (lstrip s).

(** [s.split()] without argument: the maximal runs of characters that
    are not white space, in order. *)
Fixpoint split (s : str) : list str :=
  match s with
  | [] => []
  | c :: s' =>
      if isspace c then split s'
      else match s' with
           | [] => [[c]]
           | c' :: _ =>
               if isspace c' then [c] :: split s'
               else match split s' with
                    | w :: ws => (c :: w) :: ws
                    | [] => [[c]]
                    end
           end
  end.

(** [sep.join(ws)]. *)
Fixpoint join (sep : str) (ws : list str) : str :=
  match ws with
  | [] => []
  | w :: ws' =>
      match ws' with
      | [] => w
      | _ :: _ => w ++ sep ++ join sep ws'
      end
  end.

Definition eqb (a b : str) : bool :=
  if list_eq_dec ascii_dec a b then true else false.

Fixpoint startswith (s prefix : str) : bool :=
  match prefix, s with
  | [], _ => true
  | _ :: _, [] => false
  | p :: prefix', c :: s' => Ascii.eqb p c && startswith s' prefix'
  end.

(** [needle in hay]. *)
Fixpoint contains (needle hay : str) : bool :=
  startswith hay needle
  || match hay with
     | [] => false
     | _ :: hay' => contains needle hay'
     end.

(** [s[:n]]. *)
Definition take (n : nat) (s : str) : str := firstn n s.

End PyStr.

Import PyStr.

(** ** Exceptions and results *)

Inductive exn : Type :=
| HTTPException (status_code : Z) (detail : str)
| Exception (msg : str).

Inductive result (A : Type) : Type :=
| Ok (a : A)
| Raise (e : exn).

Arguments Ok {A} a.
Arguments Raise {A} e.

Definition bind {A B : Type} (r : result A) (k : A -> result B) : result B :=
  match r with
  | Ok a => k a
  | Raise e => Raise e
  end.

Notation "x <- r ;; k" := (bind r (fun x => k))
  (at level 61, r at next level, right associativity).

(** [str(e)] for an exception. *)
Definition exn_str (e : exn) : str :=
  match e with
  | HTTPException _ d => d
  | Exception m => m
  end.

(** The value of [max(xs)] on floats: the first item is kept until a
    later one compares greater; the empty sequence raises [ValueError]. *)
Definition py_max (xs : list float) : result float :=
  match xs with
  | [] => Raise (Exception (lit "max() arg is an empty sequence"))
  | x :: xs' =>
      Ok (fold_left (fun m y => if PrimFloat.ltb m y then y else m) xs' x)
  end.

(** A dict with string keys, in insertion order. *)
Definition dict (V : Type) := list (str * V).

Definition dict_values {V : Type} (d : dict V) : list V := map snd d.

(** [d[k]], raising [KeyError] when the key is absent. *)
Definition dict_getitem {V : Type} (d : dict V) (k : str) : result V :=
  match find (fun kv => PyStr.eqb (fst kv) k) d with
  | Some kv => Ok (snd kv)
  | None => Raise (Exception k)
  end.

(** ** [models.py]: the two tables and the session *)

Module Models.

(** A row of [amendments]. *)
Record Amendment : Type := {
  a_id : Z;
  a_title : str;
  a_description : str;
  a_created_at : Z
}.

(** A row of [feedback]; the three analysis columns are nullable. *)
Record Feedback : Type := {
  f_id : Z;
  f_amendment_id : Z;
  f_original_text : str;
  f_summary : option str;
  f_sentiment : option str;
  f_sentiment_confidence : option float;
  f_created_at : Z
}.

(** The store behind a session: both tables, rows in insertion order. *)
Record Db : Type := {
  amendments : list Amendment;
  feedback : list Feedback
}.

(** The row that [filter(AmendmentModel.id == i).first()] selects: the
    first amendment whose key is [i]. *)
Definition query_amendment (db : Db) (i : Z) : option Amendment :=
  find (fun a => (a_id a =? i)%Z) (amendments db).

(** The integers the store can hold and its driver can bind: the signed
    64-bit range. *)
Definition in_sqlite_integer (i : Z) : bool :=
  ((- 2 ^ 63 <=? i) && (i <? 2 ^ 63))%Z.

(** What the driver raises for an integer outside that range; the
    wording is the library's. *)
Definition overflow_message : str :=
  lit "Python int too large to convert to SQLite INTEGER".

(** [db.query(AmendmentModel).filter(AmendmentModel.id == i).first()]:
    the query raises when [i] cannot be bound as a 64-bit integer.  The
    keys of the table are 64-bit integers themselves, so an [i] that
    matches a row can always be bound, and the range matters on a miss
    only. *)
Definition first_amendment (db : Db) (i : Z) : result (option Amendment) :=
  match query_amendment db i with
  | Some a => Ok (Some a)
  | None =>
      if in_sqlite_integer i then Ok None
      else Raise (Exception overflow_message)
  end.

(** The primary key given to the next row of [feedback]. *)
Definition next_feedback_id (db : Db) : Z :=
  (1 + fold_left Z.max (map f_id (feedback db)) 0)%Z.

(** [FeedbackModel(amendment_id=.., original_text=.., summary=..,
    sentiment=.., sentiment_confidence=..)] followed by [db.add],
    [db.commit] and [db.refresh]: the row gets its key and its
    [created_at] default, and is returned with the new store.  The
    commit is taken to succeed. *)
Definition add_feedback (db : Db) (now : Z) (amendment_id : Z)
    (original_text : str) (summary sentiment : option str)
    (sentiment_confidence : option float) : Feedback * Db :=
  let row := {| f_id := next_feedback_id db;
                f_amendment_id := amendment_id;
                f_original_text := original_text;
                f_summary := summary;
                f_sentiment := sentiment;
                f_sentiment_confidence := sentiment_confidence;
                f_created_at := now |} in
  (row, {| amendments := amendments db;
           feedback := feedback db ++ [row] |}).

(** The primary key given to the next row of [amendments]. *)
Definition next_amendment_id (db : Db) : Z :=
  (1 + fold_left Z.max (map a_id (amendments db)) 0)%Z.

(** [AmendmentModel(title=.., description=..)] followed by [db.add],
    [db.commit] and [db.refresh].  The commit is taken to succeed. *)
Definition add_amendment (db : Db) (now : Z) (title description : str)
    : Amendment * Db :=
  let row := {| a_id := next_amendment_id db;
                a_title := title;
                a_description := description;
                a_created_at := now |} in
  (row, {| amendments := amendments db ++ [row];
           feedback := feedback db |}).

(** [.order_by(column.desc())]: the rows by decreasing key.  Rows with
    equal keys come out in their table order; the database leaves that
    open, and no property below depends on it. *)
Fixpoint insert_desc {A : Type} (key : A -> Z) (x : A) (rows : list A)
    : list A :=
  match rows with
  | [] => [x]
  | y :: rows' =>
      if (key y <? key x)%Z then x :: rows
      else y :: insert_desc key x rows'
  end.

Definition order_by_desc {A : Type} (key : A -> Z) (rows : list A)
    : list A :=
  fold_right (insert_desc key) [] rows.

(** [db.query(AmendmentModel).order_by(AmendmentModel.created_at.desc())
    .all()] *)
Definition all_amendments (db : Db) : list Amendment :=
  order_by_desc a_created_at (amendments db).

(** [db.query(FeedbackModel).filter(FeedbackModel.amendment_id == i)
    .order_by(FeedbackModel.created_at.desc()).all()] *)
Definition feedback_of (db : Db) (i : Z) : list Feedback :=
  order_by_desc f_created_at
    (filter (fun f => (f_amendment_id f =? i)%Z) (feedback db)).

End Models.

Import Models.

(** ** [schemas.py]: request and response shapes *)

Module Schemas.

Record FeedbackCreate : Type := {
  amendment_id : Z;
  original_text : str
}.

(** The values that occur in the [data] dict of a response. *)
Inductive json : Type :=
| JNull
| JBool (b : bool)
| JInt (z : Z)
| JFloat (f : float)
| JStr (s : str).

Record APIResponse : Type := {
  success : bool;
  message : str;
  data : dict json
}.

(** The constraints of [FeedbackBase]: [amendment_id > 0] and a text of
    1 to 5000 characters. *)
Definition valid_feedback_create (f : FeedbackCreate) : bool :=
  (0 <? amendment_id f)%Z
  && (1 <=? length (original_text f)) && (length (original_text f) <=? 5000).

Record AmendmentCreate : Type := {
  title : str;
  description : str
}.

(** [AmendmentListResponse]: fields [success], [message], [amendments]. *)
Record AmendmentListResponse : Type := {
  al_success : bool;
  al_message : str;
  al_amendments : list Amendment
}.

(** [FeedbackListResponse]: fields [success], [message], [feedback]. *)
Record FeedbackListResponse : Type := {
  fl_success : bool;
  fl_message : str;
  fl_feedback : list Feedback
}.

(** The constraints of [AmendmentBase]: a title of 1 to 500 characters
    and a description of at least one. *)
Definition valid_amendment_create (a : AmendmentCreate) : bool :=
  (1 <=? length (title a)) && (length (title a) <=? 500)
  && (1 <=? length (description a)).

(** A row of [amendments] read as the schema [Amendment]: the
    constraints of [AmendmentBase] apply to its title and description. *)
Definition valid_amendment (row : Amendment) : bool :=
  (1 <=? length (a_title row)) && (length (a_title row) <=? 500)
  && (1 <=? length (a_description row)).

(** A row of [feedback] read as the schema [Feedback]: the constraints
    of [FeedbackBase] apply to its [amendment_id] and [original_text];
    the three analysis fields are optional. *)
Definition valid_feedback (row : Feedback) : bool :=
  (0 <? f_amendment_id row)%Z
  && (1 <=? length (f_original_text row))
  && (length (f_original_text row) <=? 5000).

(** What the validation of a response model raises; the wording is the
    library's. *)
Definition validation_error : exn :=
  Exception (lit "validation error").

(** The constructor of [AmendmentListResponse], called with keyword
    arguments: [success] and [message] have defaults, [amendments] is
    required, and a keyword that names no field is ignored.  A missing
    required field raises the validation error, and so does a row that
    does not satisfy [Amendment]. *)
Definition make_AmendmentListResponse (success : option bool)
    (message : option str) (amendments : option (list Amendment))
    : result AmendmentListResponse :=
  match amendments with
  | None => Raise validation_error
  | Some rows =>
      if forallb valid_amendment rows then
        Ok {| al_success :=
                match success with Some b => b | None => true end;
              al_message :=
                match message with
                | Some m => m
                | None => lit "Amendments retrieved successfully"
                end;
              al_amendments := rows |}
      else Raise validation_error
  end.

(** The constructor of [FeedbackListResponse]; [feedback] is required
    and every row has to satisfy [Feedback]. *)
Definition make_FeedbackListResponse (success : option bool)
    (message : option str) (feedback : option (list Feedback))
    : result FeedbackListResponse :=
  match feedback with
  | None => Raise validation_error
  | Some rows =>
      if forallb valid_feedback rows then
        Ok {| fl_success :=
                match success with Some b => b | None => true end;
              fl_message :=
                match message with
                | Some m => m
                | None => lit "Feedback retrieved successfully"
                end;
              fl_feedback := rows |}
      else Raise validation_error
  end.

(** The answer of a route: the request body is validated against its
    schema before the endpoint function is called, and a body that
    fails is answered 422 without the function being run. *)
Inductive answer (A : Type) : Type :=
| Unprocessable
| Handled (r : result A).

Arguments Unprocessable {A}.
Arguments Handled {A} r.

Definition route {A : Type} (accepted : bool) (db : Db)
    (endpoint : Db -> result A * Db) : answer A * Db :=
  if accepted then (Handled (fst (endpoint db)), snd (endpoint db))
  else (Unprocessable, db).

End Schemas.

Import Schemas.

(** The [try: ... except HTTPException: raise; except Exception as e:
    raise HTTPException(status_code=500, detail=...)] around an endpoint
    body. *)
Definition endpoint_guard {A : Type} (detail : exn -> str)
    (r : result A * Db) : result A * Db :=
  match fst r with
  | Raise (Exception m) =>
      (Raise (HTTPException 500 (detail (Exception m))), snd r)
  | _ => r
  end.

(** The [try: ... except Exception as e: raise HTTPException(500, ...)]
    around an endpoint body that has no [except HTTPException] clause:
    every exception is turned into the 500 error. *)
Definition catch_all {A : Type} (detail : exn -> str) (r : result A * Db)
    : result A * Db :=
  match fst r with
  | Raise e => (Raise (HTTPException 500 (detail e)), snd r)
  | Ok _ => r
  end.

(** [str(n)] for a length and for an integer, as an f-string prints them. *)
Definition str_of_nat (n : nat) : str :=
  lit (NilZero.string_of_uint (Nat.to_uint n)).

Definition str_of_Z (z : Z) : str :=
  lit (NilZero.string_of_int (Z.to_int z)).

(** [sum(1 for word in words if word in text_lower)] *)
Definition count_in (words : list str) (text_lower : str) : nat :=
  length (filter (fun word => contains word text_lower) words).

(** ** [app_lite_toxicity.py] *)

Module AppLiteToxicity.

(** What the module takes from outside: whether [detoxify] could be
    imported, and the [Detoxify] constructor, whose object offers
    [predict]. *)
Record Env : Type := {
  DETOXIFY_AVAILABLE : bool;
  Detoxify : str -> result (str -> result (dict float))
}.

Definition detect_toxicity (env : Env) (text : str) : bool * float :=
  if negb (DETOXIFY_AVAILABLE env) then (false, 0.0%float)
  else
    match
      (detoxify <- Detoxify env (lit "original") ;;
       toxicity_scores <- detoxify text ;;
       max_score <- py_max (dict_values toxicity_scores) ;;
       let is_toxic := PrimFloat.ltb 0.6 max_score in
       Ok (is_toxic, max_score))
    with
    | Ok r => r
    | Raise _ => (false, 0.0%float)
    end.

Definition positive_words : list str :=
  map lit ["good"; "great"; "excellent"; "positive"; "support"; "agree";
           "beneficial"]%string.

Definition negative_words : list str :=
  map lit ["bad"; "terrible"; "awful"; "negative"; "oppose"; "disagree";
           "harmful"]%string.

Definition simple_sentiment (text : str) : str * float :=
  let text_lower := lower text in
  let pos_count := count_in positive_words text_lower in
  let neg_count := count_in negative_words text_lower in
  if neg_count <? pos_count then (lit "positive", 0.75%float)
  else if pos_count <? neg_count then (lit "negative", 0.75%float)
  else (lit "neutral", 0.60%float).

Definition simple_summary (text : str) (max_words : nat) : str :=
  let words := split text in
  if length words <=? max_words then text
  else join (lit " ") (firstn max_words words) ++ lit "...".

Definition submit_feedback (env : Env) (now : Z) (feedback : FeedbackCreate)
    (db : Db) : result APIResponse * Db :=
  endpoint_guard (fun _ => lit "Failed to submit feedback")
    match first_amendment db (amendment_id feedback) with
    | Raise e => (Raise e, db)
    | Ok None => (Raise (HTTPException 404 (lit "Amendment not found")), db)
    | Ok (Some _) =>
        let '(is_toxic, toxic_score) :=
          detect_toxicity env (original_text feedback) in
        if is_toxic then
          (Ok {| success := false;
                 message := lit "The comment contains toxicity";
                 data := [(lit "toxic", JBool true);
                          (lit "toxic_score", JFloat toxic_score)] |},
           db)
        else
          let '(sentiment, confidence) :=
            simple_sentiment (original_text feedback) in
          let summary := simple_summary (original_text feedback) 15 in
          let '(db_feedback, db') :=
            add_feedback db now (amendment_id feedback)
              (original_text feedback) (Some summary) (Some sentiment)
              (Some confidence) in
          (Ok {| success := true;
                 message := lit "Feedback submitted successfully";
                 data := [(lit "toxic", JBool false);
                          (lit "feedback_id", JInt (f_id db_feedback));
                          (lit "sentiment", JStr sentiment);
                          (lit "confidence", JFloat confidence);
                          (lit "summary", JStr summary);
                          (lit "toxic_score", JFloat toxic_score)] |},
           db')
    end.

Definition create_amendment (now : Z) (amendment : AmendmentCreate)
    (db : Db) : result APIResponse * Db :=
  catch_all (fun _ => lit "Failed to create amendment")
    (let '(db_amendment, db') :=
       add_amendment db now (title amendment) (description amendment) in
     (Ok {| success := true;
            message := lit "Amendment created successfully";
            data := [(lit "id", JInt (a_id db_amendment));
                     (lit "title", JStr (a_title db_amendment));
                     (lit "description",
                      JStr (a_description db_amendment))] |},
      db')).

(** The response is built with [data=amendments]: the schema has no
    field [data], and its field [amendments] is left out. *)
Definition get_amendments (db : Db) : result AmendmentListResponse * Db :=
  catch_all (fun _ => lit "Failed to fetch amendments")
    (let amendments := all_amendments db in
     (make_AmendmentListResponse (Some true)
        (Some (lit "Retrieved " ++ str_of_nat (length amendments)
               ++ lit " amendments"))
        None,
      db)).

(** Here too the rows are passed as [data=feedback]. *)
Definition get_feedback (amendment_id : Z) (db : Db)
    : result FeedbackListResponse * Db :=
  endpoint_guard (fun _ => lit "Failed to fetch feedback")
    match first_amendment db amendment_id with
    | Raise e => (Raise e, db)
    | Ok None => (Raise (HTTPException 404 (lit "Amendment not found")), db)
    | Ok (Some _) =>
        let rows := feedback_of db amendment_id in
        (make_FeedbackListResponse (Some true)
           (Some (lit "Retrieved " ++ str_of_nat (length rows)
                  ++ lit " feedback entries"))
           None,
         db)
    end.

(** The route [POST /feedback]: the body is validated against
    [FeedbackCreate] of [schemas.py] before [submit_feedback] runs. *)
Definition post_feedback (env : Env) (now : Z) (feedback : FeedbackCreate)
    (db : Db) : answer APIResponse * Db :=
  route (valid_feedback_create feedback) db (submit_feedback env now feedback).

End AppLiteToxicity.

(** ** [app_cuda.py] *)

Module AppCuda.

(** The import flags and the three globals set at start-up; [None] is a
    model that was not loaded. *)
Record Env : Type := {
  TRANSFORMERS_AVAILABLE : bool;
  DETOXIFY_AVAILABLE : bool;
  detoxify_model : option (str -> result (dict float));
  sentiment_analyzer : option (str -> result (str * float));
  summarizer : option (str -> nat -> nat -> bool -> result str)
}.

Definition detect_toxicity_cuda (env : Env) (text : str) : bool * float :=
  match
    match DETOXIFY_AVAILABLE env, detoxify_model env with
    | true, Some predict =>
        toxicity_scores <- predict text ;;
        toxic_score <- dict_getitem toxicity_scores (lit "toxicity") ;;
        let is_toxic := PrimFloat.ltb 0.6 toxic_score in
        Ok (is_toxic, toxic_score)
    | _, _ => Ok (false, 0.0%float)
    end
  with
  | Ok r => r
  | Raise _ => (false, 0.0%float)
  end.

(** [sentiment_analyzer(text)] answers the label and score of its first
    result. *)
Definition analyze_sentiment_cuda (env : Env) (text : str) : str * float :=
  match
    match TRANSFORMERS_AVAILABLE env, sentiment_analyzer env with
    | true, Some analyzer =>
        result0 <- analyzer text ;;
        let sentiment := lower (fst result0) in
        let confidence := snd result0 in
        Ok (sentiment, confidence)
    | _, _ => Ok (lit "neutral", 0.5%float)
    end
  with
  | Ok r => r
  | Raise _ => (lit "neutral", 0.5%float)
  end.

(** The truncation used when there is no summarizer and when it fails. *)
Definition truncation (text : str) : str :=
  let words := split text in
  join (lit " ") (firstn 50 words)
  ++ (if 50 <? length words then lit "..." else []).

Definition summarize_text_cuda (env : Env) (text : str) : str :=
  match
    match TRANSFORMERS_AVAILABLE env, summarizer env with
    | true, Some summarize =>
        if length (split text) <? 10 then Ok text
        else summarize text 100 20 false
    | _, _ => Ok (truncation text)
    end
  with
  | Ok r => r
  | Raise _ => truncation text
  end.

Definition submit_feedback_cuda (env : Env) (now : Z)
    (feedback : FeedbackCreate) (db : Db) : result APIResponse * Db :=
  endpoint_guard
    (fun e => lit "Failed to submit feedback: " ++ exn_str e)
    match first_amendment db (amendment_id feedback) with
    | Raise e => (Raise e, db)
    | Ok None => (Raise (HTTPException 404 (lit "Amendment not found")), db)
    | Ok (Some _) =>
        let '(is_toxic, toxic_score) :=
          detect_toxicity_cuda env (original_text feedback) in
        if is_toxic then
          (Ok {| success := false;
                 message := lit "The comment contains toxicity";
                 data := [(lit "toxic", JBool true);
                          (lit "toxic_score", JFloat toxic_score)] |},
           db)
        else
          let '(sentiment, confidence) :=
            analyze_sentiment_cuda env (original_text feedback) in
          let summary := summarize_text_cuda env (original_text feedback) in
          let '(db_feedback, db') :=
            add_feedback db now (amendment_id feedback)
              (original_text feedback) (Some summary) (Some sentiment)
              (Some confidence) in
          (Ok {| success := true;
                 message := lit "Feedback submitted successfully";
                 data := [(lit "toxic", JBool false);
                          (lit "feedback_id", JInt (f_id db_feedback));
                          (lit "sentiment", JStr sentiment);
                          (lit "confidence", JFloat confidence);
                          (lit "summary", JStr summary);
                          (lit "toxic_score", JFloat toxic_score)] |},
           db')
    end.

(** A row of [feedback] read as the schema [Feedback] of this file:
    [summary], [sentiment] and [sentiment_confidence] are required and
    may not be null; nothing else is constrained. *)
Definition has_analysis (row : Feedback) : bool :=
  match f_summary row, f_sentiment row, f_sentiment_confidence row with
  | Some _, Some _, Some _ => true
  | _, _, _ => false
  end.

(** The constructor of this file's [AmendmentListResponse]: [message]
    and [amendments] are required; its [Amendment] constrains no field. *)
Definition cuda_AmendmentListResponse (success : option bool)
    (message : option str) (amendments : option (list Amendment))
    : result AmendmentListResponse :=
  match message, amendments with
  | Some m, Some rows =>
      Ok {| al_success :=
              match success with Some b => b | None => true end;
            al_message := m;
            al_amendments := rows |}
  | _, _ => Raise validation_error
  end.

(** The constructor of this file's [FeedbackListResponse]: [message]
    and [feedback] are required, and every row has to satisfy this
    file's [Feedback]. *)
Definition cuda_FeedbackListResponse (success : option bool)
    (message : option str) (feedback : option (list Feedback))
    : result FeedbackListResponse :=
  match message, feedback with
  | Some m, Some rows =>
      if forallb has_analysis rows then
        Ok {| fl_success :=
                match success with Some b => b | None => true end;
              fl_message := m;
              fl_feedback := rows |}
      else Raise validation_error
  | _, _ => Raise validation_error
  end.

(** The body is validated against this file's [FeedbackCreate], which
    constrains neither field. *)
Definition post_feedback (env : Env) (now : Z) (feedback : FeedbackCreate)
    (db : Db) : answer APIResponse * Db :=
  route true db (submit_feedback_cuda env now feedback).

Definition get_amendments (db : Db) : result AmendmentListResponse * Db :=
  catch_all (fun e => lit "Failed to fetch amendments: " ++ exn_str e)
    (let amendments := all_amendments db in
     (cuda_AmendmentListResponse (Some true)
        (Some (lit "Retrieved " ++ str_of_nat (length amendments)
               ++ lit " amendments"))
        (Some amendments),
      db)).

Definition create_amendment (now : Z) (amendment : AmendmentCreate)
    (db : Db) : result APIResponse * Db :=
  catch_all exn_str
    (let '(db_amendment, db') :=
       add_amendment db now (title amendment) (description amendment) in
     (Ok {| success := true;
            message := lit "Amendment created successfully";
            data := [(lit "id", JInt (a_id db_amendment));
                     (lit "title", JStr (a_title db_amendment));
                     (lit "description",
                      JStr (a_description db_amendment))] |},
      db')).

Definition get_feedback (amendment_id : Z) (db : Db)
    : result FeedbackListResponse * Db :=
  endpoint_guard exn_str
    match first_amendment db amendment_id with
    | Raise e => (Raise e, db)
    | Ok None => (Raise (HTTPException 404 (lit "Amendment not found")), db)
    | Ok (Some _) =>
        let rows := feedback_of db amendment_id in
        (cuda_FeedbackListResponse (Some true)
           (Some (lit "Retrieved " ++ str_of_nat (length rows)
                  ++ lit " feedback entries"))
           (Some rows),
         db)
    end.

End AppCuda.

(** The summarization pipeline: called with the text, [max_length],
    [min_length] and [do_sample]; [Ok s] stands for the answer
    [[{'summary_text': s}]], [Raise] for any failure of the call or of
    reading that answer. *)
Definition summarization_pipeline : Type :=
  str -> nat -> nat -> bool -> result str.

Definition NO_CONTENT : str := lit "No content to summarize".

(** [pd.isna(text) or text.strip() == ""] for a text that is a string. *)
Definition is_blank (text : str) : bool :=
  match strip text with
  | [] => true
  | _ :: _ => false
  end.

(** [if len(text_str) > 1000: text_str = text_str[:1000]] *)
Definition limit_input (text_str : str) : str :=
  if 1000 <? length text_str then take 1000 text_str else text_str.

(** ** [app_production.py] *)

Module AppProduction.

(** The globals set by [load_real_models]. *)
Record Env : Type := {
  models_loaded : bool;
  summarizer : option summarization_pipeline
}.

(** Calling the global [summarizer]; calling [None] raises. *)
Definition call_summarizer (env : Env) (text : str) (max_length
    min_length : nat) (do_sample : bool) : result str :=
  match summarizer env with
  | Some f => f text max_length min_length do_sample
  | None => Raise (Exception (lit "'NoneType' object is not callable"))
  end.

Definition summarize_text_real (env : Env) (text : str) : str :=
  if is_blank text then NO_CONTENT
  else
    let text_str := strip text in
    let words := split text_str in
    let word_count := length words in
    if word_count <=? 15 then text_str
    else if negb (models_loaded env) then
      join (lit " ") (firstn 50 words) ++ lit "..."
    else
      let text_str := limit_input text_str in
      match call_summarizer env text_str 90 20 false with
      | Ok summary => summary
      | Raise _ => join (lit " ") (firstn 50 words) ++ lit "..."
      end.

(** [predict_sentiment_real]; [classify] stands for the tokenizer and
    model globals and answers the label [id2label] gives the predicted
    class. *)
Definition predict_sentiment_real (env : Env)
    (classify : str -> result str) (text : str) : str :=
  if negb (models_loaded env) || is_blank text then lit "NEUTRAL"
  else
    match classify text with
    | Ok label =>
        if PyStr.eqb label (lit "POSITIVE") then lit "POSITIVE"
        else if PyStr.eqb label (lit "NEGATIVE") then lit "NEGATIVE"
        else lit "NEUTRAL"
    | Raise _ => lit "NEUTRAL"
    end.

End AppProduction.

(** ** [app.py] *)

Module App.

(** The summarizer is loaded when the module is imported. *)
Record Env : Type := {
  summarizer : summarization_pipeline
}.

Definition summarize_text (env : Env) (text : str) : str :=
  if is_blank text then NO_CONTENT
  else
    let text_str := strip text in
    if length text_str <? 20 then text_str
    else
      let text_str := limit_input text_str in
      match summarizer env text_str 100 20 false with
      | Ok summary => summary
      | Raise e => lit "Summarization failed: " ++ exn_str e
      end.

(** [predict_sentiment]; [classify] as in [app_production.py]. *)
Definition predict_sentiment (classify : str -> result str) (text : str)
    : str :=
  if is_blank text then lit "NEUTRAL"
  else
    match classify text with
    | Ok label => label
    | Raise _ => lit "NEUTRAL"
    end.

End App.

(** ** [app_full_system.py] *)

Module AppFullSystem.

(** [sentiment_model] stands for the tokenizer and model pair: it
    answers the predicted class and its probability, and is [None]
    when either global is unset. *)
Record Env : Type := {
  sentiment_model : option (str -> result (Z * float));
  summarizer : option summarization_pipeline
}.

Definition positive_keywords : list str :=
  map lit ["good"; "great"; "excellent"; "approve"; "support";
           "beneficial"; "helpful"; "clear"]%string.

Definition negative_keywords : list str :=
  map lit ["bad"; "poor"; "confusing"; "difficult"; "burden";
           "impractical"; "harmful"]%string.

(** The last part of [analyze_sentiment], reached when there is no
    model and when the model path raised. *)
Definition keyword_fallback (text : str) : str * float :=
  let text_lower := lower text in
  let positive_count := count_in positive_keywords text_lower in
  let negative_count := count_in negative_keywords text_lower in
  if negative_count <? positive_count then (lit "positive", 0.7%float)
  else if positive_count <? negative_count then (lit "negative", 0.7%float)
  else (lit "neutral", 0.5%float).

Definition analyze_sentiment (env : Env) (text : str) : str * float :=
  let model_path :=
    match sentiment_model env with
    | Some model =>
        match model text with
        | Ok (predicted_class, confidence) =>
            let sentiment :=
              if (predicted_class =? 1)%Z then lit "positive"
              else lit "negative" in
            Some (sentiment, confidence)
        | Raise _ => None
        end
    | None => None
    end in
  match model_path with
  | Some r => r
  | None => keyword_fallback text
  end.

Definition summarize_text (env : Env) (text : str) (max_words : nat)
    : str :=
  let words := split text in
  if length words <=? max_words then text
  else
    let model_path :=
      match summarizer env with
      | Some f =>
          match f text 90 20 false with
          | Ok summary =>
              let summary_words := firstn max_words (split summary) in
              Some (join (lit " ") summary_words)
          | Raise _ => None
          end
      | None => None
      end in
    match model_path with
    | Some final_summary => final_summary
    | None => join (lit " ") (firstn max_words words)
    end.

Definition create_amendment (now : Z) (amendment : AmendmentCreate)
    (db : Db) : result APIResponse * Db :=
  catch_all (fun _ => lit "Failed to create amendment")
    (let '(db_amendment, db') :=
       add_amendment db now (title amendment) (description amendment) in
     (Ok {| success := true;
            message := lit "Amendment created successfully";
            data := [(lit "id", JInt (a_id db_amendment));
                     (lit "title", JStr (a_title db_amendment))] |},
      db')).

Definition get_amendments (db : Db) : result AmendmentListResponse * Db :=
  catch_all (fun _ => lit "Failed to fetch amendments")
    (let amendments := all_amendments db in
     (make_AmendmentListResponse (Some true)
        (Some (lit "Retrieved " ++ str_of_nat (length amendments)
               ++ lit " amendments"))
        (Some amendments),
      db)).

(** This endpoint has no toxicity gate. *)
Definition submit_feedback (env : Env) (now : Z) (feedback : FeedbackCreate)
    (db : Db) : result APIResponse * Db :=
  endpoint_guard (fun _ => lit "Failed to submit feedback")
    match first_amendment db (amendment_id feedback) with
    | Raise e => (Raise e, db)
    | Ok None => (Raise (HTTPException 404 (lit "Amendment not found")), db)
    | Ok (Some _) =>
        let '(sentiment, confidence) :=
          analyze_sentiment env (original_text feedback) in
        let summary := summarize_text env (original_text feedback) 15 in
        let '(db_feedback, db') :=
          add_feedback db now (amendment_id feedback)
            (original_text feedback) (Some summary) (Some sentiment)
            (Some confidence) in
        (Ok {| success := true;
               message := lit "Feedback submitted and analyzed successfully";
               data := [(lit "feedback_id", JInt (f_id db_feedback));
                        (lit "sentiment", JStr sentiment);
                        (lit "confidence", JFloat confidence);
                        (lit "summary", JStr summary)] |},
         db')
    end.

Definition get_feedback (amendment_id : Z) (db : Db)
    : result FeedbackListResponse * Db :=
  endpoint_guard (fun _ => lit "Failed to fetch feedback")
    match first_amendment db amendment_id with
    | Raise e => (Raise e, db)
    | Ok None => (Raise (HTTPException 404 (lit "Amendment not found")), db)
    | Ok (Some _) =>
        let rows := feedback_of db amendment_id in
        (make_FeedbackListResponse (Some true)
           (Some (lit "Retrieved " ++ str_of_nat (length rows)
                  ++ lit " feedback items for amendment "
                  ++ str_of_Z amendment_id))
           (Some rows),
         db)
    end.

(** The route [POST /feedback]: the body is validated against
    [FeedbackCreate] of [schemas.py] before [submit_feedback] runs. *)
Definition post_feedback (env : Env) (now : Z) (feedback : FeedbackCreate)
    (db : Db) : answer APIResponse * Db :=
  route (valid_feedback_create feedback) db (submit_feedback env now feedback).

End AppFullSystem.

(** ** [app_working.py] *)

Module AppWorking.

Definition submit_feedback (now : Z) (feedback : FeedbackCreate) (db : Db)
    : result APIResponse * Db :=
  endpoint_guard exn_str
    match first_amendment db (amendment_id feedback) with
    | Raise e => (Raise e, db)
    | Ok None => (Raise (HTTPException 404 (lit "Amendment not found")), db)
    | Ok (Some _) =>
        let text := original_text feedback in
        let summary :=
          if 100 <? length text
          then lit "Summary: " ++ take 100 text ++ lit "..."
          else text in
        let sentiment :=
          if contains (lit "good") (lower text)
             || contains (lit "great") (lower text)
          then lit "positive" else lit "neutral" in
        let '(db_feedback, db') :=
          add_feedback db now (amendment_id feedback) text (Some summary)
            (Some sentiment) (Some 0.85%float) in
        (Ok {| success := true;
               message := lit "Feedback submitted successfully";
               data := [(lit "toxic", JBool false);
                        (lit "feedback_id", JInt (f_id db_feedback));
                        (lit "sentiment",
                         match f_sentiment db_feedback with
                         | Some s => JStr s
                         | None => JNull
                         end);
                        (lit "confidence",
                         match f_sentiment_confidence db_feedback with
                         | Some c => JFloat c
                         | None => JNull
                         end);
                        (lit "summary",
                         match f_summary db_feedback with
                         | Some s => JStr s
                         | None => JNull
                         end);
                        (lit "toxic_score", JFloat 0.1%float)] |},
         db')
    end.

Definition get_amendments (db : Db) : result AmendmentListResponse * Db :=
  catch_all (fun e => lit "Failed to fetch amendments: " ++ exn_str e)
    (let amendments := all_amendments db in
     (make_AmendmentListResponse (Some true)
        (Some (lit "Retrieved " ++ str_of_nat (length amendments)
               ++ lit " amendments"))
        (Some amendments),
      db)).

Definition get_feedback (amendment_id : Z) (db : Db)
    : result FeedbackListResponse * Db :=
  endpoint_guard exn_str
    match first_amendment db amendment_id with
    | Raise e => (Raise e, db)
    | Ok None => (Raise (HTTPException 404 (lit "Amendment not found")), db)
    | Ok (Some _) =>
        let rows := feedback_of db amendment_id in
        (make_FeedbackListResponse (Some true)
           (Some (lit "Retrieved " ++ str_of_nat (length rows)
                  ++ lit " feedback entries"))
           (Some rows),
         db)
    end.

(** The route [POST /feedback]: the body is validated against
    [FeedbackCreate] of [schemas.py] before [submit_feedback] runs. *)
Definition post_feedback (now : Z) (feedback : FeedbackCreate)
    (db : Db) : answer APIResponse * Db :=
  route (valid_feedback_create feedback) db (submit_feedback now feedback).

End AppWorking.

(** ** [app_enhanced.py] *)

Module AppEnhanced.

Definition positive_words : list str :=
  map lit
    ["good"; "great"; "excellent"; "amazing"; "love"; "fantastic";
     "wonderful";
     "awesome"; "perfect"; "best"; "brilliant"; "outstanding"; "superb";
     "happy"; "pleased"; "satisfied"; "impressed"; "recommend"; "quality";
     "fast"; "quick"; "efficient"; "responsive"; "helpful"; "clear"; "easy";
     "successful"; "seamless"; "professional"; "dedication"; "exceeded";
     "rare";
     "help"; "helps"; "grow"; "encourage"; "innovation"; "improve";
     "improves";
     "benefits"; "benefit"; "progressive"; "needed"; "initiative";
     "simplify";
     "transparency"; "appreciate"; "effort"; "important"; "follow"]%string.

Definition negative_words : list str :=
  map lit
    ["bad"; "terrible"; "awful"; "hate"; "worst"; "poor"; "disappointing";
     "horrible"; "useless"; "waste"; "broken"; "defective"; "cheap";
     "unhappy"; "frustrated"; "angry"; "annoyed"; "problem"; "issue";
     "damaged"; "disappointed"; "extremely disappointed"; "refused";
     "unhelpful";
     "complicated"; "time-consuming"; "not helpful"; "low quality";
     "concerns";
     "broke"; "failed"; "difficult"; "slow"; "expensive"; "overpriced";
     "confusing"; "burden"; "impractical"; "corruption"; "inaccessible";
     "delay"; "increase"; "paperwork"; "drawbacks"; "harmful"]%string.

Definition negative_phrases : list str :=
  map lit
    ["extremely disappointed"; "not helpful"; "low quality"; "poor quality";
     "terrible experience"; "bad quality"; "refused to help";
     "broke within"]%string.

Definition positive_phrases : list str :=
  map lit
    ["excellent quality"; "great product"; "outstanding customer service";
     "highly recommend"; "exceeded expectations"; "fast delivery";
     "excellent work"; "great initiative"; "much needed"; "easy to follow";
     "help startups"; "encourage innovation"; "benefits small businesses";
     "improves transparency"; "good points"]%string.

(** One loop [for entry in entries: if entry in text_lower: count += w],
    started from [count]. *)
Definition count_loop (w : nat) (entries : list str) (text_lower : str)
    (count : nat) : nat :=
  fold_left
    (fun count entry =>
       if contains entry text_lower then count + w else count)
    entries count.

Definition predict_sentiment (text : str) : str :=
  if is_blank text then lit "NEUTRAL"
  else
    let text_lower := lower text in
    let positive_count := 0 in
    let negative_count := 0 in
    let positive_count :=
      count_loop 1 positive_words text_lower positive_count in
    let negative_count :=
      count_loop 1 negative_words text_lower negative_count in
    let negative_count :=
      count_loop 2 negative_phrases text_lower negative_count in
    let positive_count :=
      count_loop 2 positive_phrases text_lower positive_count in
    if negative_count <? positive_count then lit "POSITIVE"
    else if positive_count <? negative_count then lit "NEGATIVE"
    else if length (split text) <=? 3 then lit "NEUTRAL"
    else if 0 <? negative_count then lit "NEGATIVE"
    else if 0 <? positive_count then lit "POSITIVE"
    else lit "NEUTRAL".

End AppEnhanced.

(** ** The keyword-backed strategy as the specification words it *)

Module KeywordSpec.

Inductive Label : Type := positive | negative | neutral.

(** The entries of a list that occur in the lowercased text. *)
Definition hits (entries : list str) (text : str) : nat :=
  count_in entries (lower text).

(** A matched word weighs 1 and a matched phrase weighs 2. *)
Definition weighted_count (words phrases : list str) (text : str) : nat :=
  1 * hits words text + 2 * hits phrases text.

Definition select_label (pos neg nwords : nat) : Label :=
  if neg <? pos then positive
  else if pos <? neg then negative
  else if nwords <=? 3 then neutral
  else if 0 <? neg then negative
  else if 0 <? pos then positive
  else neutral.

(** The label as [app_enhanced.py] spells it. *)
Definition label_name (l : Label) : str :=
  match l with
  | positive => lit "POSITIVE"
  | negative => lit "NEGATIVE"
  | neutral => lit "NEUTRAL"
  end.

End KeywordSpec.

(** ** Properties of rows and stores *)

(** A row whose three analysis columns are all set. *)
Definition analysed (row : Feedback) : Prop :=
  f_summary row <> None /\ f_sentiment row <> None
  /\ f_sentiment_confidence row <> None.

(** An entry that begins with a character other than white space. *)
Definition starts_nonspace (entry : str) : bool :=
  match entry with
  | c :: _ => negb (isspace c)
  | [] => false
  end.

(** The answer both gated endpoints give to a toxic comment. *)
Definition rejection (toxic_score : float) : APIResponse :=
  {| success := false;
     message := lit "The comment contains toxicity";
     data := [(lit "toxic", JBool true);
              (lit "toxic_score", JFloat toxic_score)] |}.

(** The error every feedback endpoint raises for an unknown amendment. *)
Definition not_found : exn := HTTPException 404 (lit "Amendment not found").

(** A store whose keys are unique in both tables and whose feedback rows
    all refer to an amendment that exists. *)
Definition well_formed (db : Db) : Prop :=
  NoDup (map a_id (amendments db))
  /\ NoDup (map f_id (feedback db))
  /\ (forall row, In row (feedback db) ->
       query_amendment db (f_amendment_id row) <> None).

(** [db'] is [db] with at most one feedback row added at the end. *)
Definition appends_at_most_one (db db' : Db) : Prop :=
  amendments db' = amendments db
  /\ exists added, feedback db' = feedback db ++ added /\ length added <= 1.

(** The stored row and the success response of one submission agree:
    the row is the last of the table, has a key above every older key,
    carries the request and the time, and the response reports its key
    and its three analysis values. *)
Definition recorded (db db' : Db) (now : Z) (fb : FeedbackCreate)
    (response : APIResponse) (row : Feedback) : Prop :=
  feedback db' = feedback db ++ [row]
  /\ amendments db' = amendments db
  /\ (forall old, In old (feedback db) -> (f_id old < f_id row)%Z)
  /\ f_amendment_id row = amendment_id fb
  /\ f_original_text row = original_text fb
  /\ f_created_at row = now
  /\ success response = true
  /\ dict_getitem (data response) (lit "feedback_id") = Ok (JInt (f_id row))
  /\ (exists summary sentiment confidence,
        f_summary row = Some summary
        /\ f_sentiment row = Some sentiment
        /\ f_sentiment_confidence row = Some confidence
        /\ dict_getitem (data response) (lit "summary") = Ok (JStr summary)
        /\ dict_getitem (data response) (lit "sentiment")
           = Ok (JStr sentiment)
        /\ dict_getitem (data response) (lit "confidence")
           = Ok (JFloat confidence)).

(** Rows listed newest first. *)
Definition newest_first {A : Type} (created_at : A -> Z) (rows : list A)
    : Prop :=
  StronglySorted (fun a b => (created_at b <= created_at a)%Z) rows.

(** A word as [split] yields them: not empty and free of white space. *)
Definition is_word (w : str) : bool :=
  match w with
  | [] => false
  | _ :: _ => forallb (fun c => negb (isspace c)) w
  end.

(** ** Concrete models, stores and requests used in examples *)

Module Fixtures.

Definition failure : exn := Exception (lit "model failure").

(** A Detoxify model that gives every text the same [toxicity] score. *)
Definition scoring (score : float) : str -> result (dict float) :=
  fun _ => Ok [(lit "toxicity", score); (lit "insult", 0.01%float)].

Definition raising_model {A : Type} : str -> result A :=
  fun _ => Raise failure.

Definition raising_pipeline : summarization_pipeline :=
  fun _ _ _ _ => Raise failure.

Definition lite_env (score : float) : AppLiteToxicity.Env :=
  {| AppLiteToxicity.DETOXIFY_AVAILABLE := true;
     AppLiteToxicity.Detoxify := fun _ => Ok (scoring score) |}.

Definition lite_env_raising : AppLiteToxicity.Env :=
  {| AppLiteToxicity.DETOXIFY_AVAILABLE := true;
     AppLiteToxicity.Detoxify := fun _ => Ok raising_model |}.

Definition cuda_env (score : float) : AppCuda.Env :=
  {| AppCuda.TRANSFORMERS_AVAILABLE := true;
     AppCuda.DETOXIFY_AVAILABLE := true;
     AppCuda.detoxify_model := Some (scoring score);
     AppCuda.sentiment_analyzer := Some raising_model;
     AppCuda.summarizer := Some raising_pipeline |}.

Definition cuda_env_raising : AppCuda.Env :=
  {| AppCuda.TRANSFORMERS_AVAILABLE := true;
     AppCuda.DETOXIFY_AVAILABLE := true;
     AppCuda.detoxify_model := Some raising_model;
     AppCuda.sentiment_analyzer := Some raising_model;
     AppCuda.summarizer := Some raising_pipeline |}.

Definition production_env_unloaded : AppProduction.Env :=
  {| AppProduction.models_loaded := false;
     AppProduction.summarizer := None |}.

Definition production_env_raising : AppProduction.Env :=
  {| AppProduction.models_loaded := true;
     AppProduction.summarizer := Some raising_pipeline |}.

Definition app_env_raising : App.Env :=
  {| App.summarizer := raising_pipeline |}.

Definition full_env_none : AppFullSystem.Env :=
  {| AppFullSystem.sentiment_model := None;
     AppFullSystem.summarizer := None |}.

Definition full_env_raising : AppFullSystem.Env :=
  {| AppFullSystem.sentiment_model := Some raising_model;
     AppFullSystem.summarizer := Some raising_pipeline |}.

(** A store holding amendment 1 and no feedback. *)
Definition db1 : Db :=
  {| amendments := [{| a_id := 1; a_title := lit "Data Protection";
                       a_description := lit "Draft amendment";
                       a_created_at := 100 |}];
     feedback := [] |}.

Definition request (i : Z) (text : string) : FeedbackCreate :=
  {| amendment_id := i; original_text := lit text |}.

(** Sixteen words. *)
Definition sixteen_words : str :=
  lit "one two three four five six seven eight nine ten eleven twelve thirteen fourteen fifteen sixteen".

(** A blank text: space, TAB, LF. *)
Definition blank_text : str :=
  [ascii_of_nat 32; ascii_of_nat 9; ascii_of_nat 10].

End Fixtures.

(** Further stores and requests used in examples. *)

Module Samples.

(** Two amendments, and two feedback rows on the first of them. *)
Definition db2 : Db :=
  {| amendments :=
       [{| a_id := 1; a_title := lit "Data Protection";
           a_description := lit "Draft amendment"; a_created_at := 100 |};
        {| a_id := 2; a_title := lit "Road Safety";
           a_description := lit "Second draft"; a_created_at := 150 |}];
     feedback :=
       [{| f_id := 1; f_amendment_id := 1;
           f_original_text := lit "a good amendment";
           f_summary := Some (lit "a good amendment");
           f_sentiment := Some (lit "positive");
           f_sentiment_confidence := Some 0.75%float;
           f_created_at := 120 |};
        {| f_id := 2; f_amendment_id := 1;
           f_original_text := lit "a bad amendment";
           f_summary := Some (lit "a bad amendment");
           f_sentiment := Some (lit "negative");
           f_sentiment_confidence := Some 0.75%float;
           f_created_at := 130 |}] |}.

Definition new_amendment : AmendmentCreate :=
  {| title := lit "Clean Air"; description := lit "Third draft" |}.

(** Scores of several categories, none of them NaN. *)
Definition category_scores : dict float :=
  [(lit "toxicity", 0.2%float); (lit "insult", 0.7%float);
   (lit "threat", 0.1%float)].

Definition lite_env_scores : AppLiteToxicity.Env :=
  {| AppLiteToxicity.DETOXIFY_AVAILABLE := true;
     AppLiteToxicity.Detoxify := fun _ => Ok (fun _ => Ok category_scores) |}.

Definition cuda_env_scores : AppCuda.Env :=
  {| AppCuda.TRANSFORMERS_AVAILABLE := true;
     AppCuda.DETOXIFY_AVAILABLE := true;
     AppCuda.detoxify_model := Some (fun _ => Ok category_scores);
     AppCuda.sentiment_analyzer := Some (fun _ => Ok (lit "POSITIVE", 0.9%float));
     AppCuda.summarizer := Some (fun t _ _ _ => Ok t) |}.

(** Sixty words. *)
Definition sixty_words : str :=
  lit "w1 w2 w3 w4 w5 w6 w7 w8 w9 w10 w11 w12 w13 w14 w15 w16 w17 w18 w19 w20 w21 w22 w23 w24 w25 w26 w27 w28 w29 w30 w31 w32 w33 w34 w35 w36 w37 w38 w39 w40 w41 w42 w43 w44 w45 w46 w47 w48 w49 w50 w51 w52 w53 w54 w55 w56 w57 w58 w59 w60".

(** Two production environments whose summarizers agree on inputs of
    at most 1000 characters: one echoes every input, the other fails on
    longer ones. *)
Definition production_env_echo : AppProduction.Env :=
  {| AppProduction.models_loaded := true;
     AppProduction.summarizer := Some (fun t _ _ _ => Ok t) |}.

Definition production_env_echo_short : AppProduction.Env :=
  {| AppProduction.models_loaded := true;
     AppProduction.summarizer :=
       Some (fun t _ _ _ =>
               if length t <=? 1000 then Ok t else Raise Fixtures.failure) |}.

(** A store whose only amendment has an empty title, as the route of
    [app_cuda.py] accepts it. *)
Definition db_untitled : Db :=
  {| amendments :=
       [{| a_id := 1; a_title := []; a_description := lit "Draft amendment";
           a_created_at := 100 |}];
     feedback := [] |}.

End Samples.

(** * Properties *)

(** Reduction of the control structure only: string literals stay folded. *)
Ltac step := cbn [bind fst snd negb].

(** ** Strings *)

Lemma isspace_lower_char (c : ascii) : isspace (lower_char c) = isspace c.
Proof.
  destruct c as [[] [] [] [] [] [] [] []]; reflexivity.
Qed.

Lemma lstrip_spaces (s : str) : forallb isspace s = true -> lstrip s = [].
Proof.
  induction s as [|c s IH]; simpl; [reflexivity|].
  intros H. apply andb_true_iff in H as [Hc Hs]. rewrite Hc. auto.
Qed.

Lemma lstrip_nil (s : str) : lstrip s = [] -> forallb isspace s = true.
Proof.
  induction s as [|c s IH]; simpl; [reflexivity|].
  destruct (isspace c); [exact IH | discriminate].
Qed.

(** The text is the stripped white space followed by the rest. *)
Lemma lstrip_decompose (s : str) :
  exists ws, s = ws ++ lstrip s /\ forallb isspace ws = true.
Proof.
  induction s as [|c s [ws [E H]]]; simpl.
  - exists []. split; reflexivity.
  - destruct (isspace c) eqn:Hc.
    + exists (c :: ws). simpl. rewrite Hc, H. split; [congruence|reflexivity].
    + exists []. split; reflexivity.
Qed.

Lemma forallb_rev {A : Type} (p : A -> bool) (l : list A) :
  forallb p (rev l) = forallb p l.
Proof.
  induction l as [|a l IH]; simpl; [reflexivity|].
  rewrite forallb_app, IH. simpl. rewrite andb_true_r. apply andb_comm.
Qed.

Lemma rstrip_decompose (s : str) :
  exists ws, s = rstrip s ++ ws /\ forallb isspace ws = true.
Proof.
  unfold rstrip. destruct (lstrip_decompose (rev s)) as [ws [E H]].
  exists (rev ws). split.
  - rewrite <- rev_app_distr, <- E. symmetry. apply rev_involutive.
  - rewrite forallb_rev. exact H.
Qed.

Lemma is_blank_spaces (s : str) :
  is_blank s = true <-> forallb isspace s = true.
Proof.
  unfold is_blank, strip, rstrip. split.
  - intros H.
    destruct (rev (lstrip (rev (lstrip s)))) as [|c r] eqn:E; [|discriminate].
    apply (f_equal (@rev ascii)) in E. rewrite rev_involutive in E.
    simpl in E. apply lstrip_nil in E. rewrite forallb_rev in E.
    destruct (lstrip_decompose s) as [ws [Es Hws]].
    rewrite Es, forallb_app, Hws, E. reflexivity.
  - intros H. rewrite (lstrip_spaces _ H). reflexivity.
Qed.

Lemma split_spaces (s : str) : forallb isspace s = true -> split s = [].
Proof.
  induction s as [|c s IH]; simpl; [reflexivity|].
  intros H. apply andb_true_iff in H as [Hc Hs]. rewrite Hc. auto.
Qed.

Lemma split_lstrip (s : str) : split (lstrip s) = split s.
Proof.
  induction s as [|c s IH]; [reflexivity|].
  simpl lstrip. destruct (isspace c) eqn:Hc; [|reflexivity].
  rewrite IH. simpl. rewrite Hc. reflexivity.
Qed.

(** One step of [split] at a character that is not white space. *)
Lemma split_cons_word (c : ascii) (s : str) :
  isspace c = false ->
  split (c :: s) =
    match s with
    | [] => [[c]]
    | c' :: _ =>
        if isspace c' then [c] :: split s
        else match split s with
             | w :: ws => (c :: w) :: ws
             | [] => [[c]]
             end
    end.
Proof.
  intros Hc. cbn [split]. rewrite Hc. destruct s; reflexivity.
Qed.

Lemma split_app_spaces (s ws : str) :
  forallb isspace ws = true -> split (s ++ ws) = split s.
Proof.
  intros Hws. induction s as [|c s IH].
  - simpl. apply split_spaces, Hws.
  - destruct (isspace c) eqn:Hc.
    + simpl. rewrite Hc. exact IH.
    + change ((c :: s) ++ ws) with (c :: (s ++ ws)).
      rewrite !split_cons_word by exact Hc. rewrite IH.
      destruct s as [|c' s]; [|reflexivity].
      simpl. destruct ws as [|w ws]; [reflexivity|].
      destruct (isspace w); reflexivity.
Qed.

Lemma split_strip (s : str) : split (strip s) = split s.
Proof.
  unfold strip.
  destruct (rstrip_decompose (lstrip s)) as [ws [E H]].
  transitivity (split (lstrip s)); [|apply split_lstrip].
  rewrite <- (split_app_spaces (rstrip (lstrip s)) ws H), <- E. reflexivity.
Qed.

Lemma is_blank_split (s : str) : is_blank s = true -> split s = [].
Proof.
  intros H. apply split_spaces, is_blank_spaces, H.
Qed.

(** ** ToxicityGate *)

(** C2: in both gates the verdict is [score > 0.6] for the score that is
    returned, whatever the classifier does (on the fail-open path the
    pair is [(False, 0.0)], which obeys the same law); a classifier score
    of exactly 0.6 gives not toxic and one of 0.6000001 gives toxic. *)
Theorem toxicity_verdict_is_score_above_threshold :
  (forall env text,
      fst (AppLiteToxicity.detect_toxicity env text)
      = PrimFloat.ltb 0.6 (snd (AppLiteToxicity.detect_toxicity env text)))
  /\ (forall env text,
      fst (AppCuda.detect_toxicity_cuda env text)
      = PrimFloat.ltb 0.6 (snd (AppCuda.detect_toxicity_cuda env text)))
  /\ (forall text,
      AppLiteToxicity.detect_toxicity (Fixtures.lite_env 0.6) text
      = (false, 0.6%float)
      /\ AppLiteToxicity.detect_toxicity (Fixtures.lite_env 0.6000001) text
         = (true, 0.6000001%float)
      /\ AppCuda.detect_toxicity_cuda (Fixtures.cuda_env 0.6) text
         = (false, 0.6%float)
      /\ AppCuda.detect_toxicity_cuda (Fixtures.cuda_env 0.6000001) text
         = (true, 0.6000001%float)).
Proof.
  split; [|split].
  - intros env text. unfold AppLiteToxicity.detect_toxicity.
    destruct (AppLiteToxicity.DETOXIFY_AVAILABLE env); step;
      [|reflexivity].
    destruct (AppLiteToxicity.Detoxify env (lit "original")) as [m|e];
      step; [|reflexivity].
    destruct (m text) as [scores|e]; step; [|reflexivity].
    destruct (py_max (dict_values scores)) as [x|e]; step; reflexivity.
  - intros env text. unfold AppCuda.detect_toxicity_cuda.
    destruct (AppCuda.DETOXIFY_AVAILABLE env); step; [|reflexivity].
    destruct (AppCuda.detoxify_model env) as [m|]; step; [|reflexivity].
    destruct (m text) as [scores|e]; step; [|reflexivity].
    destruct (dict_getitem scores (lit "toxicity")) as [x|e]; step;
      reflexivity.
  - intros text. repeat split; reflexivity.
Qed.

(** C4: when Detoxify is not available, cannot be constructed or loaded,
    or its [predict] raises, either gate answers [(False, 0.0)]. *)
Theorem toxicity_gate_fails_open :
  (forall env text,
      AppLiteToxicity.DETOXIFY_AVAILABLE env = false
      \/ (exists e, AppLiteToxicity.Detoxify env (lit "original") = Raise e)
      \/ (exists predict e,
             AppLiteToxicity.Detoxify env (lit "original") = Ok predict
             /\ predict text = Raise e) ->
      AppLiteToxicity.detect_toxicity env text = (false, 0.0%float))
  /\ (forall env text,
      AppCuda.DETOXIFY_AVAILABLE env = false
      \/ AppCuda.detoxify_model env = None
      \/ (exists predict e,
             AppCuda.detoxify_model env = Some predict
             /\ predict text = Raise e) ->
      AppCuda.detect_toxicity_cuda env text = (false, 0.0%float)).
Proof.
  split; intros env text H.
  - unfold AppLiteToxicity.detect_toxicity.
    destruct (AppLiteToxicity.DETOXIFY_AVAILABLE env) eqn:Ha; step;
      [|reflexivity].
    destruct H as [H | [[e H] | [predict [e [H1 H2]]]]].
    + discriminate.
    + rewrite H. reflexivity.
    + rewrite H1. step. rewrite H2. reflexivity.
  - unfold AppCuda.detect_toxicity_cuda.
    destruct (AppCuda.DETOXIFY_AVAILABLE env) eqn:Ha; step; [|reflexivity].
    destruct H as [H | [H | [predict [e [H1 H2]]]]].
    + discriminate.
    + rewrite H. reflexivity.
    + rewrite H1. step. rewrite H2. reflexivity.
Qed.

Lemma toxicity_gate_fails_open_witness :
  AppLiteToxicity.detect_toxicity Fixtures.lite_env_raising (lit "any text")
  = (false, 0.0%float)
  /\ AppCuda.detect_toxicity_cuda Fixtures.cuda_env_raising (lit "any text")
     = (false, 0.0%float).
Proof.
  split.
  - apply (proj1 toxicity_gate_fails_open). right. right.
    exists Fixtures.raising_model, Fixtures.failure. split; reflexivity.
  - apply (proj2 toxicity_gate_fails_open). right. right.
    exists Fixtures.raising_model, Fixtures.failure. split; reflexivity.
Defined.

(** ** FeedbackRecorder and the endpoints *)

Lemma endpoint_guard_ok {A : Type} (detail : exn -> str) (a : A) (db : Db) :
  endpoint_guard detail (Ok a, db) = (Ok a, db).
Proof. reflexivity. Qed.

Lemma endpoint_guard_http {A : Type} (detail : exn -> str) (c : Z) (d : str)
    (db : Db) :
  endpoint_guard (A := A) detail (Raise (HTTPException c d), db)
  = (Raise (HTTPException c d), db).
Proof. reflexivity. Qed.

(** C1, as stated, fails: a comment scored 0.75 on an existing amendment
    is judged toxic and rejected, and afterwards the feedback table is
    still empty, so no toxic-marked row exists. *)
Lemma toxic_submission_persists_no_row :
  valid_feedback_create (Fixtures.request 1 "you are all fools") = true
  /\ fst (AppLiteToxicity.detect_toxicity (Fixtures.lite_env 0.75)
            (original_text (Fixtures.request 1 "you are all fools")))
     = true
  /\ fst (AppLiteToxicity.submit_feedback (Fixtures.lite_env 0.75) 200
            (Fixtures.request 1 "you are all fools") Fixtures.db1)
     = Ok (rejection 0.75)
  /\ feedback
       (snd (AppLiteToxicity.submit_feedback (Fixtures.lite_env 0.75) 200
               (Fixtures.request 1 "you are all fools") Fixtures.db1))
     = [].
Proof. repeat split; reflexivity. Qed.

(** C1, amended: when the amendment exists and the gate judges the text
    toxic, either gated endpoint returns the rejection carrying the
    toxicity score and leaves the store as it was; the answer is fixed
    by the gate alone, so no later stage takes part. *)
Theorem toxic_submission_rejected_store_unchanged :
  (forall env now feedback db a,
      query_amendment db (amendment_id feedback) = Some a ->
      fst (AppLiteToxicity.detect_toxicity env (original_text feedback))
      = true ->
      AppLiteToxicity.submit_feedback env now feedback db
      = (Ok (rejection
               (snd (AppLiteToxicity.detect_toxicity env
                       (original_text feedback)))),
         db))
  /\ (forall env now feedback db a,
      query_amendment db (amendment_id feedback) = Some a ->
      fst (AppCuda.detect_toxicity_cuda env (original_text feedback))
      = true ->
      AppCuda.submit_feedback_cuda env now feedback db
      = (Ok (rejection
               (snd (AppCuda.detect_toxicity_cuda env
                       (original_text feedback)))),
         db)).
Proof.
  split; intros env now fb db a Hq Ht.
  - unfold AppLiteToxicity.submit_feedback. unfold first_amendment.
    rewrite Hq.
    destruct (AppLiteToxicity.detect_toxicity env (original_text fb))
      as [is_toxic toxic_score].
    cbn [fst snd] in *. subst is_toxic. reflexivity.
  - unfold AppCuda.submit_feedback_cuda. unfold first_amendment.
    rewrite Hq.
    destruct (AppCuda.detect_toxicity_cuda env (original_text fb))
      as [is_toxic toxic_score].
    cbn [fst snd] in *. subst is_toxic. reflexivity.
Qed.

Lemma toxic_submission_rejected_store_unchanged_witness :
  AppLiteToxicity.submit_feedback (Fixtures.lite_env 0.75) 200
    (Fixtures.request 1 "you are all fools") Fixtures.db1
  = (Ok (rejection 0.75), Fixtures.db1)
  /\ AppCuda.submit_feedback_cuda (Fixtures.cuda_env 0.75) 200
       (Fixtures.request 1 "you are all fools") Fixtures.db1
     = (Ok (rejection 0.75), Fixtures.db1).
Proof.
  split.
  - exact (proj1 toxic_submission_rejected_store_unchanged
             (Fixtures.lite_env 0.75) 200%Z
             (Fixtures.request 1 "you are all fools") Fixtures.db1
             _ eq_refl eq_refl).
  - exact (proj2 toxic_submission_rejected_store_unchanged
             (Fixtures.cuda_env 0.75) 200%Z
             (Fixtures.request 1 "you are all fools") Fixtures.db1
             _ eq_refl eq_refl).
Defined.

(** The lookup of an endpoint, by cases: a key that matches a row is
    found, a key in range that matches none is missing, and a key out of
    range that matches none makes the query raise. *)
Lemma first_amendment_found (db : Db) (i : Z) (a : Amendment) :
  query_amendment db i = Some a -> first_amendment db i = Ok (Some a).
Proof. intros H. unfold first_amendment. rewrite H. reflexivity. Qed.

Lemma first_amendment_missing (db : Db) (i : Z) :
  query_amendment db i = None -> in_sqlite_integer i = true ->
  first_amendment db i = Ok None.
Proof. intros H R. unfold first_amendment. rewrite H, R. reflexivity. Qed.

Lemma first_amendment_overflow (db : Db) (i : Z) :
  query_amendment db i = None -> in_sqlite_integer i = false ->
  first_amendment db i = Raise (Exception overflow_message).
Proof. intros H R. unfold first_amendment. rewrite H, R. reflexivity. Qed.




Lemma add_feedback_rows (db : Db) (now i : Z) (text summary sentiment : str)
    (confidence : float) (row : Feedback) :
  In row (feedback (snd (add_feedback db now i text (Some summary)
                           (Some sentiment) (Some confidence)))) ->
  In row (feedback db) \/ analysed row.
Proof.
  unfold add_feedback. cbn [snd feedback]. intros H.
  apply in_app_or in H as [H | [H | []]]; [left; exact H|].
  right. subst row. unfold analysed. cbn. repeat split; discriminate.
Qed.

(** C10: after a call of a feedback endpoint, every row of the feedback
    table either was there before the call or has its summary, sentiment
    and confidence set; and the gated endpoints add a row only when the
    gate did not judge the text toxic. *)
Theorem persisted_rows_are_analysed :
  (forall env now fb db row,
      In row (feedback (snd (AppLiteToxicity.submit_feedback env now fb db)))
      -> In row (feedback db)
         \/ (analysed row
             /\ fst (AppLiteToxicity.detect_toxicity env (original_text fb))
                = false))
  /\ (forall env now fb db row,
      In row (feedback (snd (AppCuda.submit_feedback_cuda env now fb db)))
      -> In row (feedback db)
         \/ (analysed row
             /\ fst (AppCuda.detect_toxicity_cuda env (original_text fb))
                = false))
  /\ (forall now fb db row,
      In row (feedback (snd (AppWorking.submit_feedback now fb db)))
      -> In row (feedback db) \/ analysed row).
Proof.
  split; [|split].
  - intros env now fb db row. unfold AppLiteToxicity.submit_feedback.
    unfold first_amendment.
    destruct (query_amendment db (amendment_id fb));
      [|destruct (in_sqlite_integer (amendment_id fb)); left; assumption].
    destruct (AppLiteToxicity.detect_toxicity env (original_text fb))
      as [is_toxic toxic_score].
    destruct is_toxic; [left; assumption|].
    destruct (AppLiteToxicity.simple_sentiment (original_text fb))
      as [sentiment confidence].
    intros H. apply add_feedback_rows in H as [H | H]; auto.
  - intros env now fb db row. unfold AppCuda.submit_feedback_cuda.
    unfold first_amendment.
    destruct (query_amendment db (amendment_id fb));
      [|destruct (in_sqlite_integer (amendment_id fb)); left; assumption].
    destruct (AppCuda.detect_toxicity_cuda env (original_text fb))
      as [is_toxic toxic_score].
    destruct is_toxic; [left; assumption|].
    destruct (AppCuda.analyze_sentiment_cuda env (original_text fb))
      as [sentiment confidence].
    intros H. apply add_feedback_rows in H as [H | H]; auto.
  - intros now fb db row. unfold AppWorking.submit_feedback.
    unfold first_amendment.
    destruct (query_amendment db (amendment_id fb));
      [|destruct (in_sqlite_integer (amendment_id fb)); left; assumption].
    intros H. apply add_feedback_rows in H. exact H.
Qed.

Lemma persisted_rows_are_analysed_witness :
  In (fst (add_feedback Fixtures.db1 200 1 (lit "a good amendment")
             (Some (lit "a good amendment")) (Some (lit "positive"))
             (Some 0.75%float)))
     (feedback Fixtures.db1)
  \/ (analysed
        (fst (add_feedback Fixtures.db1 200 1 (lit "a good amendment")
                (Some (lit "a good amendment")) (Some (lit "positive"))
                (Some 0.75%float)))
      /\ fst (AppLiteToxicity.detect_toxicity (Fixtures.lite_env 0.1)
                (original_text (Fixtures.request 1 "a good amendment")))
         = false).
Proof.
  apply (proj1 persisted_rows_are_analysed (Fixtures.lite_env 0.1) 200%Z
           (Fixtures.request 1 "a good amendment") Fixtures.db1).
  cbn. left. reflexivity.
Defined.

(** ** Summarizer *)

(** C3, as stated, fails: a two-character word after a space has one
    word, yet [summarize_text_real] returns it without the space; and a
    single word of 25 characters is handed to the summarizer by
    [app.py], which has a 20-character rule and no 15-word rule. *)
Lemma short_text_not_always_unchanged :
  (length (split (lit " ok")) <= 15
   /\ AppProduction.summarize_text_real Fixtures.production_env_unloaded
        (lit " ok")
      <> lit " ok")
  /\ (length (split (lit "aaaaaaaaaaaaaaaaaaaaaaaaa")) <= 15
      /\ App.summarize_text Fixtures.app_env_raising
           (lit "aaaaaaaaaaaaaaaaaaaaaaaaa")
         <> lit "aaaaaaaaaaaaaaaaaaaaaaaaa").
Proof.
  split; split; try (cbn; lia); vm_compute; discriminate.
Qed.

(** C3, amended: for a text of at most 15 words,
    [app_full_system.summarize_text] returns the text unchanged and
    [summarize_text_real] returns the text stripped of surrounding white
    space, or the no-content sentinel when the text is blank;
    [app.summarize_text] returns the stripped text (or the sentinel)
    when the stripped text has fewer than 20 characters. *)
Theorem short_text_summary :
  (forall env text,
      length (split text) <= 15 ->
      AppFullSystem.summarize_text env text 15 = text)
  /\ (forall env text,
      length (split text) <= 15 ->
      AppProduction.summarize_text_real env text
      = if is_blank text then NO_CONTENT else strip text)
  /\ (forall env text,
      length (strip text) < 20 ->
      App.summarize_text env text
      = if is_blank text then NO_CONTENT else strip text).
Proof.
  split; [|split]; intros env text H.
  - unfold AppFullSystem.summarize_text.
    apply Nat.leb_le in H. rewrite H. reflexivity.
  - unfold AppProduction.summarize_text_real.
    destruct (is_blank text); [reflexivity|].
    rewrite split_strip. apply Nat.leb_le in H. rewrite H. reflexivity.
  - unfold App.summarize_text.
    destruct (is_blank text); [reflexivity|].
    apply Nat.ltb_lt in H. rewrite H. reflexivity.
Qed.

Lemma short_text_summary_witness :
  AppFullSystem.summarize_text Fixtures.full_env_raising
    (lit " Great job on this amendment! ") 15
  = lit " Great job on this amendment! "
  /\ AppProduction.summarize_text_real Fixtures.production_env_raising
       (lit " Great job on this amendment! ")
     = lit "Great job on this amendment!"
  /\ App.summarize_text Fixtures.app_env_raising (lit " well done ")
     = lit "well done".
Proof.
  split; [|split].
  - apply (proj1 short_text_summary). cbn. lia.
  - apply (proj1 (proj2 short_text_summary) Fixtures.production_env_raising
             (lit " Great job on this amendment! ")).
    cbn. lia.
  - apply (proj2 (proj2 short_text_summary) Fixtures.app_env_raising
             (lit " well done ")).
    cbn. lia.
Defined.

(** C5, as stated, fails: on a text of sixteen words, with no summarizer
    configured [app_full_system.summarize_text] returns the first fifteen
    words and no ellipsis, and with a summarizer that raises
    [summarize_text_cuda] returns the sixteen words and no ellipsis. *)
Lemma fallback_not_always_fifty_words_and_ellipsis :
  15 < length (split Fixtures.sixteen_words)
  /\ AppFullSystem.summarizer Fixtures.full_env_none = None
  /\ AppFullSystem.summarize_text Fixtures.full_env_none
       Fixtures.sixteen_words 15
     <> join (lit " ") (firstn 50 (split Fixtures.sixteen_words)) ++ lit "..."
  /\ AppCuda.summarize_text_cuda Fixtures.cuda_env_raising
       Fixtures.sixteen_words
     <> join (lit " ") (firstn 50 (split Fixtures.sixteen_words)) ++ lit "...".
Proof.
  split; [cbn; lia|]. split; [reflexivity|].
  split; vm_compute; discriminate.
Qed.

Lemma long_text_not_blank (text : str) :
  15 < length (split text) -> is_blank text = false.
Proof.
  intros H. destruct (is_blank text) eqn:E; [|reflexivity].
  rewrite (is_blank_split _ E) in H. cbn in H. lia.
Qed.

(** C5, amended: for a text of more than 15 words whose summarization
    model is not loaded, not configured or raises,
    [summarize_text_real] returns the first 50 words joined by spaces
    followed by the ellipsis; [summarize_text_cuda] returns the first 50
    words joined by spaces, followed by the ellipsis only when the text
    has more than 50 words; [app_full_system.summarize_text] returns the
    first 15 words joined by spaces, without ellipsis. *)
Theorem summarizer_fallback_truncation :
  (forall env text,
      15 < length (split text) ->
      AppProduction.models_loaded env = false
      \/ AppProduction.summarizer env = None
      \/ (exists f e,
             AppProduction.summarizer env = Some f
             /\ f (limit_input (strip text)) 90 20 false = Raise e) ->
      AppProduction.summarize_text_real env text
      = join (lit " ") (firstn 50 (split text)) ++ lit "...")
  /\ (forall env text,
      15 < length (split text) ->
      AppCuda.TRANSFORMERS_AVAILABLE env = false
      \/ AppCuda.summarizer env = None
      \/ (exists f e,
             AppCuda.summarizer env = Some f
             /\ f text 100 20 false = Raise e) ->
      AppCuda.summarize_text_cuda env text
      = join (lit " ") (firstn 50 (split text))
        ++ (if 50 <? length (split text) then lit "..." else []))
  /\ (forall env text,
      15 < length (split text) ->
      AppFullSystem.summarizer env = None
      \/ (exists f e,
             AppFullSystem.summarizer env = Some f
             /\ f text 90 20 false = Raise e) ->
      AppFullSystem.summarize_text env text 15
      = join (lit " ") (firstn 15 (split text))).
Proof.
  split; [|split]; intros env text Hlen H.
  - unfold AppProduction.summarize_text_real.
    rewrite (long_text_not_blank _ Hlen), split_strip.
    assert (Hw : (length (split text) <=? 15) = false)
      by (apply Nat.leb_gt; exact Hlen).
    rewrite Hw. unfold AppProduction.call_summarizer.
    destruct (AppProduction.models_loaded env); [|reflexivity].
    cbn [negb].
    destruct H as [H | [H | [f [e [H1 H2]]]]].
    + discriminate.
    + rewrite H. reflexivity.
    + rewrite H1, H2. reflexivity.
  - unfold AppCuda.summarize_text_cuda, AppCuda.truncation.
    destruct (AppCuda.TRANSFORMERS_AVAILABLE env); [|reflexivity].
    destruct H as [H | [H | [f [e [H1 H2]]]]].
    + discriminate.
    + rewrite H. reflexivity.
    + rewrite H1, H2.
      assert (Hw : (length (split text) <? 10) = false)
        by (apply Nat.ltb_ge; lia).
      rewrite Hw. reflexivity.
  - unfold AppFullSystem.summarize_text.
    assert (Hw : (length (split text) <=? 15) = false)
      by (apply Nat.leb_gt; exact Hlen).
    rewrite Hw.
    destruct H as [H | [f [e [H1 H2]]]].
    + rewrite H. reflexivity.
    + rewrite H1, H2. reflexivity.
Qed.

Lemma summarizer_fallback_truncation_witness :
  AppProduction.summarize_text_real Fixtures.production_env_raising
    Fixtures.sixteen_words
  = join (lit " ") (firstn 50 (split Fixtures.sixteen_words)) ++ lit "..."
  /\ AppCuda.summarize_text_cuda Fixtures.cuda_env_raising
       Fixtures.sixteen_words
     = join (lit " ") (firstn 50 (split Fixtures.sixteen_words))
       ++ (if 50 <? length (split Fixtures.sixteen_words)
           then lit "..." else [])
  /\ AppFullSystem.summarize_text Fixtures.full_env_none
       Fixtures.sixteen_words 15
     = join (lit " ") (firstn 15 (split Fixtures.sixteen_words)).
Proof.
  split; [|split].
  - apply (proj1 summarizer_fallback_truncation); [cbn; lia|].
    right. right. exists Fixtures.raising_pipeline, Fixtures.failure.
    split; reflexivity.
  - apply (proj1 (proj2 summarizer_fallback_truncation)); [cbn; lia|].
    right. right. exists Fixtures.raising_pipeline, Fixtures.failure.
    split; reflexivity.
  - apply (proj2 (proj2 summarizer_fallback_truncation)); [cbn; lia|].
    left. reflexivity.
Defined.

(** C9: on an empty or white-space-only text, [summarize_text_real] and
    [app.summarize_text] return the sentinel "No content to summarize";
    both functions are total, so no exception leaves them. *)
Theorem blank_text_yields_sentinel :
  forall env_production env_app text,
    forallb isspace text = true ->
    AppProduction.summarize_text_real env_production text
    = lit "No content to summarize"
    /\ App.summarize_text env_app text = lit "No content to summarize".
Proof.
  intros envp enva text H. apply is_blank_spaces in H.
  unfold AppProduction.summarize_text_real, App.summarize_text.
  rewrite H. split; reflexivity.
Qed.

Lemma blank_text_yields_sentinel_witness :
  (AppProduction.summarize_text_real Fixtures.production_env_raising
     Fixtures.blank_text
   = lit "No content to summarize"
   /\ App.summarize_text Fixtures.app_env_raising Fixtures.blank_text
      = lit "No content to summarize")
  /\ (AppProduction.summarize_text_real Fixtures.production_env_raising []
      = lit "No content to summarize"
      /\ App.summarize_text Fixtures.app_env_raising []
         = lit "No content to summarize").
Proof.
  split.
  - apply blank_text_yields_sentinel. reflexivity.
  - apply blank_text_yields_sentinel. reflexivity.
Defined.

(** ** SentimentClassifier *)

Lemma contains_head (c : ascii) (entry hay : str) :
  contains (c :: entry) hay = true -> In c hay.
Proof.
  induction hay as [|h hay IH]; cbn [contains startswith].
  - discriminate.
  - intros H. apply orb_true_iff in H as [H | H].
    + apply andb_true_iff in H as [H _]. apply Ascii.eqb_eq in H.
      left. symmetry. exact H.
    + right. exact (IH H).
Qed.

Lemma lower_spaces (text : str) :
  forallb isspace text = true -> forallb isspace (lower text) = true.
Proof.
  unfold lower. induction text as [|c text IH]; cbn [map forallb];
    [reflexivity|].
  rewrite isspace_lower_char. intros H.
  apply andb_true_iff in H as [Hc H]. rewrite Hc, (IH H). reflexivity.
Qed.

(** No entry that begins with a visible character occurs in white space. *)
Lemma count_in_spaces (entries : list str) (hay : str) :
  forallb isspace hay = true ->
  forallb starts_nonspace entries = true ->
  count_in entries hay = 0.
Proof.
  intros Hhay. unfold count_in.
  induction entries as [|entry entries IH]; cbn [forallb filter];
    [reflexivity|].
  intros H. apply andb_true_iff in H as [He H].
  destruct (contains entry hay) eqn:E; [|exact (IH H)].
  destruct entry as [|c entry]; [discriminate|].
  apply contains_head in E.
  rewrite forallb_forall in Hhay. cbn [starts_nonspace] in He.
  rewrite (Hhay c E) in He. discriminate.
Qed.

(** A counting loop adds its weight once for each entry that occurs. *)
Lemma count_loop_weight (w : nat) (entries : list str) (text_lower : str)
    (count : nat) :
  AppEnhanced.count_loop w entries text_lower count
  = count + w * count_in entries text_lower.
Proof.
  unfold AppEnhanced.count_loop, count_in. revert count.
  induction entries as [|entry entries IH]; intros count;
    cbn [fold_left filter].
  - cbn. lia.
  - rewrite IH. destruct (contains entry text_lower); cbn [length]; lia.
Qed.

(** C6: [app_enhanced.predict_sentiment] answers the label the
    specification selects from the weighted counts: on each side one for
    every entry of the word list and two for every entry of the phrase
    list found in the lowercased text; the larger side wins, and on a tie
    the answer is neutral for at most 3 words, else negative if the
    negative count is positive, else positive if the positive count is,
    else neutral. *)
Theorem predict_sentiment_follows_weighted_counts :
  forall text,
    AppEnhanced.predict_sentiment text
    = KeywordSpec.label_name
        (KeywordSpec.select_label
           (KeywordSpec.weighted_count AppEnhanced.positive_words
              AppEnhanced.positive_phrases text)
           (KeywordSpec.weighted_count AppEnhanced.negative_words
              AppEnhanced.negative_phrases text)
           (length (split text))).
Proof.
  intros text. unfold AppEnhanced.predict_sentiment.
  unfold KeywordSpec.weighted_count, KeywordSpec.hits.
  destruct (is_blank text) eqn:B.
  - pose proof (lower_spaces _ (proj1 (is_blank_spaces text) B)) as Hl.
    rewrite !(count_in_spaces _ _ Hl) by reflexivity.
    rewrite (is_blank_split _ B). reflexivity.
  - rewrite !count_loop_weight. rewrite !Nat.add_0_l.
    generalize (count_in AppEnhanced.positive_words (lower text)).
    generalize (count_in AppEnhanced.positive_phrases (lower text)).
    generalize (count_in AppEnhanced.negative_words (lower text)).
    generalize (count_in AppEnhanced.negative_phrases (lower text)).
    intros np nw pp pw. unfold KeywordSpec.select_label.
    generalize (1 * pw + 2 * pp) (1 * nw + 2 * np) (length (split text)).
    intros p n k.
    destruct (n <? p); [reflexivity|].
    destruct (p <? n); [reflexivity|].
    destruct (k <=? 3); [reflexivity|].
    destruct (0 <? n); [reflexivity|].
    destruct (0 <? p); reflexivity.
Qed.

(** The scenario of the specification, and the weights on an example:
    "highly recommend" counts 1 for the word and 2 for the phrase. *)
Example predict_sentiment_scenarios :
  AppEnhanced.predict_sentiment (lit "Great job on this amendment!")
  = lit "POSITIVE"
  /\ KeywordSpec.weighted_count AppEnhanced.positive_words
       AppEnhanced.positive_phrases (lit "I Highly Recommend it")
     = 3
  /\ KeywordSpec.weighted_count AppEnhanced.negative_words
       AppEnhanced.negative_phrases (lit "I Highly Recommend it")
     = 0.
Proof. repeat split; vm_compute; reflexivity. Qed.

(** C8, as stated, fails for [analyze_sentiment_cuda]: when its
    classifier raises it answers neutral with confidence 0.5 on a text
    that the keyword strategies label positive. *)
Lemma cuda_sentiment_failure_is_constant :
  AppCuda.sentiment_analyzer Fixtures.cuda_env_raising
  = Some Fixtures.raising_model
  /\ AppCuda.analyze_sentiment_cuda Fixtures.cuda_env_raising
       (lit "a good and great amendment")
     = (lit "neutral", 0.5%float)
  /\ AppFullSystem.keyword_fallback (lit "a good and great amendment")
     = (lit "positive", 0.7%float)
  /\ AppEnhanced.predict_sentiment (lit "a good and great amendment")
     = lit "POSITIVE".
Proof. repeat split; vm_compute; reflexivity. Qed.

(** C8, amended: when the classifier raises,
    [app_full_system.analyze_sentiment] answers what its keyword counts
    give (positive or negative with 0.7 for the larger count, neutral
    with 0.5 on a tie), while [analyze_sentiment_cuda] answers the fixed
    pair neutral, 0.5; neither raises, and the CUDA endpoint still
    answers a non-toxic submission on an existing amendment with a
    response. *)
Theorem sentiment_failure_fallback :
  (forall env text model e,
      AppFullSystem.sentiment_model env = Some model ->
      model text = Raise e ->
      AppFullSystem.analyze_sentiment env text
      = let p := count_in AppFullSystem.positive_keywords (lower text) in
        let n := count_in AppFullSystem.negative_keywords (lower text) in
        if n <? p then (lit "positive", 0.7%float)
        else if p <? n then (lit "negative", 0.7%float)
        else (lit "neutral", 0.5%float))
  /\ (forall env text analyzer e,
      AppCuda.sentiment_analyzer env = Some analyzer ->
      analyzer text = Raise e ->
      AppCuda.analyze_sentiment_cuda env text = (lit "neutral", 0.5%float))
  /\ (forall env now fb db a analyzer e,
      AppCuda.sentiment_analyzer env = Some analyzer ->
      analyzer (original_text fb) = Raise e ->
      query_amendment db (amendment_id fb) = Some a ->
      fst (AppCuda.detect_toxicity_cuda env (original_text fb)) = false ->
      exists response,
        fst (AppCuda.submit_feedback_cuda env now fb db) = Ok response
        /\ success response = true).
Proof.
  split; [|split].
  - intros env text model e Hm He. unfold AppFullSystem.analyze_sentiment.
    rewrite Hm, He. reflexivity.
  - intros env text analyzer e Ha He. unfold AppCuda.analyze_sentiment_cuda.
    rewrite Ha. destruct (AppCuda.TRANSFORMERS_AVAILABLE env);
      [|reflexivity].
    rewrite He. reflexivity.
  - intros env now fb db a analyzer e Ha He Hq Ht.
    unfold AppCuda.submit_feedback_cuda. unfold first_amendment.
    rewrite Hq.
    destruct (AppCuda.detect_toxicity_cuda env (original_text fb))
      as [is_toxic toxic_score].
    cbn [fst] in Ht. subst is_toxic.
    destruct (AppCuda.analyze_sentiment_cuda env (original_text fb))
      as [sentiment confidence].
    eexists. split; reflexivity.
Qed.

Lemma sentiment_failure_fallback_witness :
  AppFullSystem.analyze_sentiment Fixtures.full_env_raising
    (lit "this is a bad and harmful change")
  = (lit "negative", 0.7%float)
  /\ AppCuda.analyze_sentiment_cuda Fixtures.cuda_env_raising
       (lit "this is a bad and harmful change")
     = (lit "neutral", 0.5%float).
Proof.
  split.
  - exact (proj1 sentiment_failure_fallback Fixtures.full_env_raising
             (lit "this is a bad and harmful change")
             Fixtures.raising_model Fixtures.failure eq_refl eq_refl).
  - exact (proj1 (proj2 sentiment_failure_fallback)
             Fixtures.cuda_env_raising
             (lit "this is a bad and harmful change")
             Fixtures.raising_model Fixtures.failure eq_refl eq_refl).
Defined.

(** * Further properties of the code *)

(** ** The store *)

Lemma fold_max_bounds (l : list Z) (init : Z) :
  (init <= fold_left Z.max l init)%Z
  /\ (forall x, In x l -> (x <= fold_left Z.max l init)%Z).
Proof.
  revert init. induction l as [|y l IH]; intros init; cbn [fold_left].
  - split; [lia|]. intros x [].
  - destruct (IH (Z.max init y)) as [H1 H2]. split; [lia|].
    intros x [Hx | Hx]; [subst; lia | exact (H2 x Hx)].
Qed.

Lemma next_feedback_id_fresh (db : Db) (row : Feedback) :
  In row (feedback db) -> (f_id row < next_feedback_id db)%Z.
Proof.
  intros H. unfold next_feedback_id.
  pose proof (proj2 (fold_max_bounds (map f_id (feedback db)) 0) (f_id row)
                (in_map f_id _ _ H)).
  lia.
Qed.

Lemma next_amendment_id_fresh (db : Db) (row : Amendment) :
  In row (amendments db) -> (a_id row < next_amendment_id db)%Z.
Proof.
  intros H. unfold next_amendment_id.
  pose proof (proj2 (fold_max_bounds (map a_id (amendments db)) 0) (a_id row)
                (in_map a_id _ _ H)).
  lia.
Qed.

Lemma find_app_last {A : Type} (p : A -> bool) (l : list A) (x : A) :
  find p (l ++ [x])
  = match find p l with
    | Some y => Some y
    | None => if p x then Some x else None
    end.
Proof.
  induction l as [|y l IH]; cbn [app find]; [reflexivity|].
  destruct (p y); [reflexivity | exact IH].
Qed.

Lemma find_none_all {A : Type} (p : A -> bool) (l : list A) :
  (forall x, In x l -> p x = false) -> find p l = None.
Proof.
  induction l as [|y l IH]; cbn [find]; [reflexivity|].
  intros H. rewrite (H y (or_introl eq_refl)).
  apply IH. intros x Hx. apply H. right. exact Hx.
Qed.

(** The key of a new amendment matches no row of the table. *)
Lemma query_next_amendment_id (db : Db) :
  query_amendment db (next_amendment_id db) = None.
Proof.
  unfold query_amendment. apply find_none_all. intros row H.
  apply next_amendment_id_fresh in H. apply Z.eqb_neq. lia.
Qed.

Lemma query_after_add_amendment (db : Db) (now : Z) (t d : str) (i : Z) :
  query_amendment (snd (add_amendment db now t d)) i
  = match query_amendment db i with
    | Some a => Some a
    | None =>
        if (next_amendment_id db =? i)%Z
        then Some (fst (add_amendment db now t d))
        else None
    end.
Proof.
  unfold query_amendment, add_amendment. cbn [snd fst amendments a_id].
  rewrite find_app_last. reflexivity.
Qed.

Lemma NoDup_app_last {A : Type} (l : list A) (x : A) :
  NoDup l -> ~ In x l -> NoDup (l ++ [x]).
Proof.
  intros Hl Hx. apply NoDup_rev in Hl.
  rewrite <- (rev_involutive (l ++ [x])). apply NoDup_rev.
  rewrite rev_app_distr. cbn. constructor; [|exact Hl].
  rewrite <- in_rev. exact Hx.
Qed.

Lemma add_amendment_well_formed (db : Db) (now : Z) (t d : str) :
  well_formed db -> well_formed (snd (add_amendment db now t d)).
Proof.
  intros [Ha [Hf Hr]]. unfold well_formed.
  split; [|split].
  - unfold add_amendment. cbn [snd amendments]. rewrite map_app.
    apply NoDup_app_last; [exact Ha|]. cbn [map a_id]. intros Hin.
    apply in_map_iff in Hin as [row [E Hrow]].
    apply next_amendment_id_fresh in Hrow. lia.
  - exact Hf.
  - intros row Hrow. rewrite query_after_add_amendment.
    specialize (Hr row Hrow).
    destruct (query_amendment db (f_amendment_id row)); [discriminate|].
    contradiction.
Qed.

Lemma add_feedback_well_formed (db : Db) (now i : Z) (text : str)
    (summary sentiment : option str) (confidence : option float) :
  query_amendment db i <> None ->
  well_formed db ->
  well_formed (snd (add_feedback db now i text summary sentiment
                      confidence)).
Proof.
  intros Hq [Ha [Hf Hr]]. unfold well_formed, add_feedback.
  cbn [snd amendments feedback]. split; [exact Ha|]. split.
  - rewrite map_app. apply NoDup_app_last; [exact Hf|]. cbn [map f_id].
    intros Hin. apply in_map_iff in Hin as [row [E Hrow]].
    apply next_feedback_id_fresh in Hrow. lia.
  - intros row Hrow. apply in_app_or in Hrow as [Hrow | [Hrow | []]].
    + exact (Hr row Hrow).
    + subst row. exact Hq.
Qed.

(** Creating an amendment and looking its key up gives the new row back:
    the three [create_amendment] endpoints answer success with the key
    of a row that carries the submitted title and description and the
    creation time. *)
Theorem create_amendment_then_lookup :
  forall now amendment db,
    let row := {| a_id := next_amendment_id db;
                  a_title := title amendment;
                  a_description := description amendment;
                  a_created_at := now |} in
    (exists response,
        fst (AppLiteToxicity.create_amendment now amendment db) = Ok response
        /\ success response = true
        /\ dict_getitem (data response) (lit "id") = Ok (JInt (a_id row))
        /\ query_amendment
             (snd (AppLiteToxicity.create_amendment now amendment db))
             (a_id row)
           = Some row)
    /\ (exists response,
        fst (AppCuda.create_amendment now amendment db) = Ok response
        /\ success response = true
        /\ dict_getitem (data response) (lit "id") = Ok (JInt (a_id row))
        /\ query_amendment
             (snd (AppCuda.create_amendment now amendment db)) (a_id row)
           = Some row)
    /\ (exists response,
        fst (AppFullSystem.create_amendment now amendment db) = Ok response
        /\ success response = true
        /\ dict_getitem (data response) (lit "id") = Ok (JInt (a_id row))
        /\ query_amendment
             (snd (AppFullSystem.create_amendment now amendment db))
             (a_id row)
           = Some row).
Proof.
  intros now am db row.
  assert (Hq : query_amendment (snd (add_amendment db now (title am)
                                       (description am))) (a_id row)
               = Some row).
  { rewrite query_after_add_amendment. cbn [a_id row].
    rewrite query_next_amendment_id, Z.eqb_refl. reflexivity. }
  split; [|split]; eexists; (split; [reflexivity|]);
    (split; [reflexivity|]); (split; [reflexivity|]); exact Hq.
Qed.

(** Creating an amendment keeps the store in order: every amendment
    that resolved before still resolves to the same row, the feedback
    table is untouched, and a well-formed store stays well formed. *)
Theorem create_amendment_preserves_store :
  forall now amendment db,
    well_formed db ->
    let db' := snd (AppLiteToxicity.create_amendment now amendment db) in
    snd (AppCuda.create_amendment now amendment db) = db'
    /\ snd (AppFullSystem.create_amendment now amendment db) = db'
    /\ well_formed db'
    /\ feedback db' = feedback db
    /\ (forall i a, query_amendment db i = Some a ->
                    query_amendment db' i = Some a).
Proof.
  intros now am db Hwf db'.
  split; [reflexivity|]. split; [reflexivity|]. split; [|split].
  - apply (@add_amendment_well_formed db now (title am) (description am) Hwf).
  - reflexivity.
  - intros i a Hq. subst db'.
    change (snd (AppLiteToxicity.create_amendment now am db))
      with (snd (add_amendment db now (title am) (description am))).
    rewrite query_after_add_amendment, Hq. reflexivity.
Qed.

Lemma samples_db2_well_formed : well_formed Samples.db2.
Proof.
  unfold well_formed. split; [|split].
  - cbn. repeat constructor; cbn; intuition discriminate.
  - cbn. repeat constructor; cbn; intuition discriminate.
  - intros row [H | [H | []]]; subst row; cbn; discriminate.
Qed.

Lemma create_amendment_preserves_store_witness :
  well_formed
    (snd (AppLiteToxicity.create_amendment 300 Samples.new_amendment
            Samples.db2))
  /\ query_amendment
       (snd (AppLiteToxicity.create_amendment 300 Samples.new_amendment
               Samples.db2)) 2
     = query_amendment Samples.db2 2.
Proof.
  pose proof (create_amendment_preserves_store 300%Z Samples.new_amendment
                samples_db2_well_formed) as H.
  cbv zeta in H. destruct H as [_ [_ [Hwf [_ Hq]]]].
  split; [exact Hwf|]. apply Hq. reflexivity.
Defined.

(** ** Listing *)

Lemma insert_desc_perm {A : Type} (key : A -> Z) (x : A) (rows : list A) :
  Permutation (insert_desc key x rows) (x :: rows).
Proof.
  induction rows as [|y rows IH]; cbn [insert_desc]; [reflexivity|].
  destruct (key y <? key x)%Z; [reflexivity|].
  rewrite IH. apply perm_swap.
Qed.

Lemma order_by_desc_perm {A : Type} (key : A -> Z) (rows : list A) :
  Permutation (order_by_desc key rows) rows.
Proof.
  unfold order_by_desc. induction rows as [|x rows IH]; cbn [fold_right];
    [reflexivity|].
  rewrite insert_desc_perm. constructor. exact IH.
Qed.

Lemma insert_desc_sorted {A : Type} (key : A -> Z) (x : A) (rows : list A) :
  newest_first key rows -> newest_first key (insert_desc key x rows).
Proof.
  unfold newest_first. induction rows as [|y rows IH]; cbn [insert_desc].
  - intros _. repeat constructor.
  - intros H. inversion H as [|y' rows' Hs Hall]; subst.
    destruct (key y <? key x)%Z eqn:E.
    + apply Z.ltb_lt in E. constructor; [exact H|].
      constructor; [lia|].
      rewrite Forall_forall in *. intros z Hz. specialize (Hall z Hz). lia.
    + apply Z.ltb_ge in E. constructor; [exact (IH Hs)|].
      rewrite Forall_forall in *. intros z Hz.
      apply (Permutation_in _ (insert_desc_perm key x rows)) in Hz.
      destruct Hz as [Hz | Hz]; [subst; exact E | exact (Hall z Hz)].
Qed.

Lemma order_by_desc_sorted {A : Type} (key : A -> Z) (rows : list A) :
  newest_first key (order_by_desc key rows).
Proof.
  unfold order_by_desc. induction rows as [|x rows IH]; cbn [fold_right].
  - constructor.
  - apply insert_desc_sorted, IH.
Qed.

Lemma forallb_perm {A : Type} (p : A -> bool) (l l' : list A) :
  Permutation l l' -> forallb p l = forallb p l'.
Proof.
  induction 1 as [|x l l' _ IH|x y l|l l' l'' _ IH1 _ IH2]; cbn [forallb].
  - reflexivity.
  - rewrite IH. reflexivity.
  - destruct (p x), (p y); reflexivity.
  - rewrite IH1. exact IH2.
Qed.

(** [get_amendments]: [app_cuda.py], whose response model constrains no
    field, answers every amendment of the table exactly once, newest
    first, reports their number in the message and leaves the store as
    it was.  [app_working.py] and [app_full_system.py] give the same
    answer when every amendment satisfies the schema [Amendment] (title
    of 1 to 500 characters, description not empty); when some row does
    not, building the response fails and they answer the 500 error. *)
Theorem get_amendments_lists_table_newest_first :
  forall db,
    (exists response,
        AppCuda.get_amendments db = (Ok response, db)
        /\ al_success response = true
        /\ Permutation (al_amendments response) (amendments db)
        /\ newest_first a_created_at (al_amendments response)
        /\ al_message response
           = lit "Retrieved " ++ str_of_nat (length (amendments db))
             ++ lit " amendments")
    /\ (forallb valid_amendment (amendments db) = true ->
        AppWorking.get_amendments db = AppCuda.get_amendments db
        /\ AppFullSystem.get_amendments db = AppCuda.get_amendments db)
    /\ (forallb valid_amendment (amendments db) = false ->
        (exists detail,
            AppWorking.get_amendments db
            = (Raise (HTTPException 500 detail), db))
        /\ AppFullSystem.get_amendments db
           = (Raise (HTTPException 500 (lit "Failed to fetch amendments")),
              db)).
Proof.
  intros db.
  assert (Hv : forallb valid_amendment (all_amendments db)
               = forallb valid_amendment (amendments db))
    by (apply forallb_perm, order_by_desc_perm).
  split; [|split].
  - eexists. split; [reflexivity|].
    cbn [al_success al_amendments al_message].
    split; [reflexivity|]. split; [apply order_by_desc_perm|].
    split; [apply order_by_desc_sorted|].
    unfold all_amendments.
    rewrite (Permutation_length (order_by_desc_perm a_created_at
                                   (amendments db))).
    reflexivity.
  - intros H. rewrite <- Hv in H.
    unfold AppWorking.get_amendments, AppFullSystem.get_amendments,
      AppCuda.get_amendments, make_AmendmentListResponse.
    cbv zeta. rewrite H. split; reflexivity.
  - intros H. rewrite <- Hv in H.
    unfold AppWorking.get_amendments, AppFullSystem.get_amendments,
      make_AmendmentListResponse.
    cbv zeta. rewrite H. split; [eexists|]; reflexivity.
Qed.

Lemma get_amendments_lists_table_newest_first_witness :
  AppWorking.get_amendments Samples.db2 = AppCuda.get_amendments Samples.db2
  /\ AppFullSystem.get_amendments Samples.db_untitled
     = (Raise (HTTPException 500 (lit "Failed to fetch amendments")),
        Samples.db_untitled).
Proof.
  split.
  - apply (proj1 (proj2 (get_amendments_lists_table_newest_first
                           Samples.db2))).
    reflexivity.
  - apply (proj2 (proj2 (get_amendments_lists_table_newest_first
                           Samples.db_untitled))).
    reflexivity.
Defined.

Lemma feedback_of_rows (db : Db) (i : Z) (row : Feedback) :
  In row (feedback_of db i)
  <-> In row (feedback db) /\ f_amendment_id row = i.
Proof.
  unfold feedback_of. split.
  - intros H. apply (Permutation_in _ (order_by_desc_perm _ _)) in H.
    apply filter_In in H as [H1 H2]. apply Z.eqb_eq in H2. auto.
  - intros [H1 H2].
    apply (Permutation_in _ (Permutation_sym (order_by_desc_perm _ _))).
    apply filter_In. split; [exact H1|]. apply Z.eqb_eq. exact H2.
Qed.

(** [get_feedback] for an amendment that exists.  The rows selected are
    exactly the feedback rows of that amendment, newest first.
    [app_working.py] and [app_full_system.py] answer them when each
    satisfies the schema [Feedback] ([amendment_id] positive, text of 1
    to 5000 characters) and answer the 500 error otherwise;
    [app_cuda.py] answers them when each has its summary, sentiment and
    confidence set and answers the 500 error otherwise.  The store is
    unchanged in every case. *)
Theorem get_feedback_lists_rows_of_amendment :
  forall i db a,
    query_amendment db i = Some a ->
    let rows := feedback_of db i in
    ((forall row, In row rows
                  <-> In row (feedback db) /\ f_amendment_id row = i)
     /\ newest_first f_created_at rows
     /\ length rows
        = length (filter (fun f => (f_amendment_id f =? i)%Z)
                    (feedback db)))
    /\ (forallb valid_feedback rows = true ->
        exists r1 r2,
          AppWorking.get_feedback i db = (Ok r1, db)
          /\ fl_feedback r1 = rows
          /\ AppFullSystem.get_feedback i db = (Ok r2, db)
          /\ fl_feedback r2 = rows)
    /\ (forallb valid_feedback rows = false ->
        (exists detail,
            AppWorking.get_feedback i db
            = (Raise (HTTPException 500 detail), db))
        /\ AppFullSystem.get_feedback i db
           = (Raise (HTTPException 500 (lit "Failed to fetch feedback")),
              db))
    /\ (forallb AppCuda.has_analysis rows = true ->
        exists r,
          AppCuda.get_feedback i db = (Ok r, db) /\ fl_feedback r = rows)
    /\ (forallb AppCuda.has_analysis rows = false ->
        exists detail,
          AppCuda.get_feedback i db
          = (Raise (HTTPException 500 detail), db)).
Proof.
  intros i db a Hq rows.
  unfold AppWorking.get_feedback, AppCuda.get_feedback,
    AppFullSystem.get_feedback.
  rewrite (first_amendment_found _ _ Hq).
  unfold make_FeedbackListResponse, AppCuda.cuda_FeedbackListResponse.
  fold rows.
  split; [|split; [|split; [|split]]].
  - split; [intros row; apply feedback_of_rows|].
    split; [apply order_by_desc_sorted|].
    apply Permutation_length, order_by_desc_perm.
  - intros H. rewrite H. eexists. eexists. repeat split; reflexivity.
  - intros H. rewrite H. split; [eexists|]; reflexivity.
  - intros H. rewrite H. eexists. split; reflexivity.
  - intros H. rewrite H. eexists. reflexivity.
Qed.

Lemma get_feedback_lists_rows_of_amendment_witness :
  exists response,
    AppWorking.get_feedback 1 Samples.db2 = (Ok response, Samples.db2)
    /\ map f_id (fl_feedback response) = [2; 1]%Z.
Proof.
  destruct (@get_feedback_lists_rows_of_amendment 1%Z Samples.db2 _ eq_refl)
    as [_ [H _]].
  destruct (H eq_refl) as [r1 [r2 [H1 [H2 _]]]].
  exists r1. split; [exact H1|]. rewrite H2. reflexivity.
Defined.

(** A listing for an amendment id that matches no amendment leaves the
    store unchanged; it is answered with the 404 error when the id lies
    within the store's 64-bit range, and with the 500 error when it
    does not, because the query itself then raises. *)
Theorem get_feedback_unknown_amendment :
  forall i db,
    query_amendment db i = None ->
    (in_sqlite_integer i = true ->
     AppWorking.get_feedback i db = (Raise not_found, db)
     /\ AppCuda.get_feedback i db = (Raise not_found, db)
     /\ AppFullSystem.get_feedback i db = (Raise not_found, db)
     /\ AppLiteToxicity.get_feedback i db = (Raise not_found, db))
    /\ (in_sqlite_integer i = false ->
        (exists detail,
            AppWorking.get_feedback i db
            = (Raise (HTTPException 500 detail), db))
        /\ (exists detail,
               AppCuda.get_feedback i db
               = (Raise (HTTPException 500 detail), db))
        /\ AppFullSystem.get_feedback i db
           = (Raise (HTTPException 500 (lit "Failed to fetch feedback")),
              db)
        /\ AppLiteToxicity.get_feedback i db
           = (Raise (HTTPException 500 (lit "Failed to fetch feedback")),
              db)).
Proof.
  intros i db Hq.
  unfold AppWorking.get_feedback, AppCuda.get_feedback,
    AppFullSystem.get_feedback, AppLiteToxicity.get_feedback.
  split; intros R.
  - rewrite (first_amendment_missing _ _ Hq R). repeat split; reflexivity.
  - rewrite (first_amendment_overflow _ _ Hq R).
    split; [eexists; reflexivity|]. split; [eexists; reflexivity|].
    split; reflexivity.
Qed.

Lemma get_feedback_unknown_amendment_witness :
  AppWorking.get_feedback 9 Samples.db2 = (Raise not_found, Samples.db2)
  /\ AppFullSystem.get_feedback (2 ^ 63) Samples.db2
     = (Raise (HTTPException 500 (lit "Failed to fetch feedback")),
        Samples.db2).
Proof.
  split.
  - apply (proj1 (@get_feedback_unknown_amendment 9%Z Samples.db2 eq_refl)).
    reflexivity.
  - apply (proj2 (@get_feedback_unknown_amendment (2 ^ 63)%Z Samples.db2
                    eq_refl)).
    reflexivity.
Defined.

(** The two listings of [app_lite_toxicity.py] never succeed: they build
    their response with the keyword [data], so the required field of the
    response model is missing, and the failure is answered as a 500
    error, for every store and for every amendment that exists. *)
Theorem lite_listings_always_fail :
  (forall db,
      AppLiteToxicity.get_amendments db
      = (Raise (HTTPException 500 (lit "Failed to fetch amendments")), db))
  /\ (forall i db a,
      query_amendment db i = Some a ->
      AppLiteToxicity.get_feedback i db
      = (Raise (HTTPException 500 (lit "Failed to fetch feedback")), db)).
Proof.
  split.
  - intros db. reflexivity.
  - intros i db a Hq. unfold AppLiteToxicity.get_feedback.
    rewrite (first_amendment_found _ _ Hq). reflexivity.
Qed.

Lemma lite_listings_always_fail_witness :
  AppLiteToxicity.get_feedback 1 Samples.db2
  = (Raise (HTTPException 500 (lit "Failed to fetch feedback")), Samples.db2).
Proof.
  apply (proj2 lite_listings_always_fail 1%Z Samples.db2 _ eq_refl).
Defined.

(** ** Submissions and the store *)

Lemma add_feedback_appends (db : Db) (now i : Z) (text : str)
    (summary sentiment : option str) (confidence : option float) :
  appends_at_most_one db
    (snd (add_feedback db now i text summary sentiment confidence)).
Proof.
  split; [reflexivity|]. eexists. split; [reflexivity|]. cbn. lia.
Qed.

Lemma appends_nothing (db : Db) : appends_at_most_one db db.
Proof.
  split; [reflexivity|]. exists []. split; [|cbn; lia].
  symmetry. apply app_nil_r.
Qed.

(** A submission never removes or changes what is stored: in the four
    endpoints the amendments are untouched and the feedback table after
    the call is the table before it followed by at most one new row. *)
Theorem submit_feedback_is_append_only :
  (forall env now fb db,
      appends_at_most_one db
        (snd (AppLiteToxicity.submit_feedback env now fb db)))
  /\ (forall env now fb db,
      appends_at_most_one db
        (snd (AppCuda.submit_feedback_cuda env now fb db)))
  /\ (forall now fb db,
      appends_at_most_one db (snd (AppWorking.submit_feedback now fb db)))
  /\ (forall env now fb db,
      appends_at_most_one db
        (snd (AppFullSystem.submit_feedback env now fb db))).
Proof.
  split; [|split; [|split]].
  - intros env now fb db. unfold AppLiteToxicity.submit_feedback.
    unfold first_amendment.
    destruct (query_amendment db (amendment_id fb));
      [|destruct (in_sqlite_integer (amendment_id fb));
        apply appends_nothing].
    destruct (AppLiteToxicity.detect_toxicity env (original_text fb))
      as [[] toxic_score]; [apply appends_nothing|].
    destruct (AppLiteToxicity.simple_sentiment (original_text fb)).
    apply add_feedback_appends.
  - intros env now fb db. unfold AppCuda.submit_feedback_cuda.
    unfold first_amendment.
    destruct (query_amendment db (amendment_id fb));
      [|destruct (in_sqlite_integer (amendment_id fb));
        apply appends_nothing].
    destruct (AppCuda.detect_toxicity_cuda env (original_text fb))
      as [[] toxic_score]; [apply appends_nothing|].
    destruct (AppCuda.analyze_sentiment_cuda env (original_text fb)).
    apply add_feedback_appends.
  - intros now fb db. unfold AppWorking.submit_feedback.
    unfold first_amendment.
    destruct (query_amendment db (amendment_id fb));
      [|destruct (in_sqlite_integer (amendment_id fb));
        apply appends_nothing].
    apply add_feedback_appends.
  - intros env now fb db. unfold AppFullSystem.submit_feedback.
    unfold first_amendment.
    destruct (query_amendment db (amendment_id fb));
      [|destruct (in_sqlite_integer (amendment_id fb));
        apply appends_nothing].
    destruct (AppFullSystem.analyze_sentiment env (original_text fb)).
    apply add_feedback_appends.
Qed.

(** A well-formed store stays well formed under a submission: keys stay
    unique and the new row, if any, refers to an amendment that exists. *)
Theorem submit_feedback_keeps_store_well_formed :
  forall db,
    well_formed db ->
    (forall env now fb,
        well_formed (snd (AppLiteToxicity.submit_feedback env now fb db)))
    /\ (forall env now fb,
        well_formed (snd (AppCuda.submit_feedback_cuda env now fb db)))
    /\ (forall now fb,
        well_formed (snd (AppWorking.submit_feedback now fb db)))
    /\ (forall env now fb,
        well_formed (snd (AppFullSystem.submit_feedback env now fb db))).
Proof.
  intros db Hwf. split; [|split; [|split]].
  - intros env now fb. unfold AppLiteToxicity.submit_feedback.
    unfold first_amendment.
    destruct (query_amendment db (amendment_id fb)) eqn:Hq;
      [|destruct (in_sqlite_integer (amendment_id fb)); exact Hwf].
    destruct (AppLiteToxicity.detect_toxicity env (original_text fb))
      as [[] toxic_score]; [exact Hwf|].
    destruct (AppLiteToxicity.simple_sentiment (original_text fb)).
    apply add_feedback_well_formed; [rewrite Hq; discriminate | exact Hwf].
  - intros env now fb. unfold AppCuda.submit_feedback_cuda.
    unfold first_amendment.
    destruct (query_amendment db (amendment_id fb)) eqn:Hq;
      [|destruct (in_sqlite_integer (amendment_id fb)); exact Hwf].
    destruct (AppCuda.detect_toxicity_cuda env (original_text fb))
      as [[] toxic_score]; [exact Hwf|].
    destruct (AppCuda.analyze_sentiment_cuda env (original_text fb)).
    apply add_feedback_well_formed; [rewrite Hq; discriminate | exact Hwf].
  - intros now fb. unfold AppWorking.submit_feedback.
    unfold first_amendment.
    destruct (query_amendment db (amendment_id fb)) eqn:Hq;
      [|destruct (in_sqlite_integer (amendment_id fb)); exact Hwf].
    apply add_feedback_well_formed; [rewrite Hq; discriminate | exact Hwf].
  - intros env now fb. unfold AppFullSystem.submit_feedback.
    unfold first_amendment.
    destruct (query_amendment db (amendment_id fb)) eqn:Hq;
      [|destruct (in_sqlite_integer (amendment_id fb)); exact Hwf].
    destruct (AppFullSystem.analyze_sentiment env (original_text fb)).
    apply add_feedback_well_formed; [rewrite Hq; discriminate | exact Hwf].
Qed.

Lemma submit_feedback_keeps_store_well_formed_witness :
  well_formed
    (snd (AppWorking.submit_feedback 300
            (Fixtures.request 2 "a great amendment") Samples.db2)).
Proof.
  apply (proj1 (proj2 (proj2 (@submit_feedback_keeps_store_well_formed
                                Samples.db2 samples_db2_well_formed)))).
Defined.

Lemma add_feedback_recorded (db : Db) (now : Z) (fb : FeedbackCreate)
    (summary sentiment : str) (confidence : float) (response : APIResponse) :
  success response = true ->
  dict_getitem (data response) (lit "feedback_id")
  = Ok (JInt (next_feedback_id db)) ->
  dict_getitem (data response) (lit "summary") = Ok (JStr summary) ->
  dict_getitem (data response) (lit "sentiment") = Ok (JStr sentiment) ->
  dict_getitem (data response) (lit "confidence") = Ok (JFloat confidence) ->
  recorded db
    (snd (add_feedback db now (amendment_id fb) (original_text fb)
            (Some summary) (Some sentiment) (Some confidence)))
    now fb response
    (fst (add_feedback db now (amendment_id fb) (original_text fb)
            (Some summary) (Some sentiment) (Some confidence))).
Proof.
  intros Hs Hid Hsum Hsen Hconf. unfold recorded, add_feedback.
  cbn [fst snd feedback amendments f_id f_amendment_id f_original_text
       f_created_at f_summary f_sentiment f_sentiment_confidence].
  repeat split; try assumption.
  - intros old Hold. apply next_feedback_id_fresh, Hold.
  - exists summary, sentiment, confidence. repeat split; assumption.
Qed.

(** When the amendment exists and the gate lets the text pass, the two
    gated endpoints answer success and store one row that agrees with
    the request and with the response, and the response repeats the
    score the gate measured. *)
Theorem accepted_submission_is_recorded :
  (forall env now fb db a,
      query_amendment db (amendment_id fb) = Some a ->
      fst (AppLiteToxicity.detect_toxicity env (original_text fb)) = false ->
      exists response row,
        AppLiteToxicity.submit_feedback env now fb db
        = (Ok response,
           {| amendments := amendments db;
              feedback := feedback db ++ [row] |})
        /\ recorded db (snd (AppLiteToxicity.submit_feedback env now fb db))
             now fb response row
        /\ dict_getitem (data response) (lit "toxic_score")
           = Ok (JFloat
                   (snd (AppLiteToxicity.detect_toxicity env
                           (original_text fb)))))
  /\ (forall env now fb db a,
      query_amendment db (amendment_id fb) = Some a ->
      fst (AppCuda.detect_toxicity_cuda env (original_text fb)) = false ->
      exists response row,
        AppCuda.submit_feedback_cuda env now fb db
        = (Ok response,
           {| amendments := amendments db;
              feedback := feedback db ++ [row] |})
        /\ recorded db (snd (AppCuda.submit_feedback_cuda env now fb db))
             now fb response row
        /\ dict_getitem (data response) (lit "toxic_score")
           = Ok (JFloat
                   (snd (AppCuda.detect_toxicity_cuda env
                           (original_text fb))))).
Proof.
  split; intros env now fb db a Hq Ht.
  - unfold AppLiteToxicity.submit_feedback. unfold first_amendment.
    rewrite Hq.
    destruct (AppLiteToxicity.detect_toxicity env (original_text fb))
      as [is_toxic toxic_score].
    cbn [fst snd] in *. subst is_toxic.
    destruct (AppLiteToxicity.simple_sentiment (original_text fb))
      as [sentiment confidence].
    eexists. eexists. split; [reflexivity|]. split; [|reflexivity].
    apply add_feedback_recorded; reflexivity.
  - unfold AppCuda.submit_feedback_cuda. unfold first_amendment.
    rewrite Hq.
    destruct (AppCuda.detect_toxicity_cuda env (original_text fb))
      as [is_toxic toxic_score].
    cbn [fst snd] in *. subst is_toxic.
    destruct (AppCuda.analyze_sentiment_cuda env (original_text fb))
      as [sentiment confidence].
    eexists. eexists. split; [reflexivity|]. split; [|reflexivity].
    apply add_feedback_recorded; reflexivity.
Qed.

Lemma accepted_submission_is_recorded_witness :
  exists response row,
    AppLiteToxicity.submit_feedback (Fixtures.lite_env 0.1) 300
      (Fixtures.request 2 "a great amendment") Samples.db2
    = (Ok response,
       {| amendments := amendments Samples.db2;
          feedback := feedback Samples.db2 ++ [row] |})
    /\ f_id row = 3%Z.
Proof.
  destruct (proj1 accepted_submission_is_recorded (Fixtures.lite_env 0.1)
              300%Z (Fixtures.request 2 "a great amendment") Samples.db2
              _ eq_refl eq_refl) as [response [row [H _]]].
  exists response, row. split; [exact H|].
  cbv in H. injection H as _ H. subst row. reflexivity.
Defined.

(** The routes without a gate record every accepted submission on an
    existing amendment, whatever the models answer: a request that
    passes validation is answered success and one row that agrees with
    it is appended; a request that fails validation (an empty or
    over-long text, an [amendment_id] that is not positive) is answered
    422 and nothing is stored. *)
Theorem ungated_submission_is_always_recorded :
  (forall now fb db a,
      query_amendment db (amendment_id fb) = Some a ->
      (valid_feedback_create fb = true ->
       exists response row,
         AppWorking.post_feedback now fb db
         = (Handled (Ok response),
            {| amendments := amendments db;
               feedback := feedback db ++ [row] |})
         /\ recorded db (snd (AppWorking.post_feedback now fb db))
              now fb response row)
      /\ (valid_feedback_create fb = false ->
          AppWorking.post_feedback now fb db = (Unprocessable, db)))
  /\ (forall env now fb db a,
      query_amendment db (amendment_id fb) = Some a ->
      (valid_feedback_create fb = true ->
       exists response row,
         AppFullSystem.post_feedback env now fb db
         = (Handled (Ok response),
            {| amendments := amendments db;
               feedback := feedback db ++ [row] |})
         /\ recorded db (snd (AppFullSystem.post_feedback env now fb db))
              now fb response row)
      /\ (valid_feedback_create fb = false ->
          AppFullSystem.post_feedback env now fb db = (Unprocessable, db))).
Proof.
  split.
  - intros now fb db a Hq.
    unfold AppWorking.post_feedback, route, AppWorking.submit_feedback.
    rewrite (first_amendment_found _ _ Hq).
    split; intros Hv; rewrite Hv; [|reflexivity].
    eexists. eexists. split; [reflexivity|].
    apply add_feedback_recorded; reflexivity.
  - intros env now fb db a Hq.
    unfold AppFullSystem.post_feedback, route,
      AppFullSystem.submit_feedback.
    rewrite (first_amendment_found _ _ Hq).
    split; intros Hv; rewrite Hv; [|reflexivity].
    destruct (AppFullSystem.analyze_sentiment env (original_text fb))
      as [sentiment confidence].
    eexists. eexists. split; [reflexivity|].
    apply add_feedback_recorded; reflexivity.
Qed.

Lemma ungated_submission_is_always_recorded_witness :
  (exists response row,
      AppFullSystem.post_feedback Fixtures.full_env_raising 300
        (Fixtures.request 1 "you are all fools") Samples.db2
      = (Handled (Ok response),
         {| amendments := amendments Samples.db2;
            feedback := feedback Samples.db2 ++ [row] |})
      /\ f_original_text row = lit "you are all fools")
  /\ AppFullSystem.post_feedback Fixtures.full_env_raising 300
       {| amendment_id := 1; original_text := [] |} Samples.db2
     = (Unprocessable, Samples.db2).
Proof.
  split.
  - destruct (proj1 (proj2 ungated_submission_is_always_recorded
                       Fixtures.full_env_raising 300%Z
                       (Fixtures.request 1 "you are all fools") Samples.db2
                       _ eq_refl) eq_refl)
      as [response [row [H [_ [_ [_ [_ [Ht _]]]]]]]].
    exists response, row. split; [exact H | exact Ht].
  - apply (proj2 (proj2 ungated_submission_is_always_recorded
                    Fixtures.full_env_raising 300%Z
                    {| amendment_id := 1; original_text := [] |} Samples.db2 _ eq_refl)).
    reflexivity.
Defined.

Lemma filter_nothing {A : Type} (p : A -> bool) (l : list A) :
  (forall x, In x l -> p x = false) -> filter p l = [].
Proof.
  induction l as [|y l IH]; cbn [filter]; [reflexivity|].
  intros H. rewrite (H y (or_introl eq_refl)).
  apply IH. intros x Hx. apply H. right. exact Hx.
Qed.

Lemma next_amendment_id_positive (db : Db) : (0 < next_amendment_id db)%Z.
Proof.
  unfold next_amendment_id.
  pose proof (proj1 (fold_max_bounds (map a_id (amendments db)) 0)). lia.
Qed.

(** Creating an amendment, submitting one comment on it and listing its
    feedback, in [app_full_system.py] on a well-formed store and with
    requests that pass validation (title of 1 to 500 characters,
    description not empty, text of 1 to 5000 characters): the
    submission is accepted, and the listing succeeds and holds exactly
    one row, which carries the submitted text, the new amendment's key
    and the submission time. *)
Theorem create_submit_list_round_trip :
  forall env now1 now2 amendment text db,
    well_formed db ->
    valid_amendment_create amendment = true ->
    1 <= length text ->
    length text <= 5000 ->
    let i := next_amendment_id db in
    let db1 := snd (AppFullSystem.create_amendment now1 amendment db) in
    let request := {| amendment_id := i; original_text := text |} in
    let db2 := snd (AppFullSystem.post_feedback env now2 request db1) in
    valid_feedback_create request = true
    /\ exists response row,
         AppFullSystem.get_feedback i db2 = (Ok response, db2)
         /\ fl_feedback response = [row]
         /\ f_original_text row = text
         /\ f_amendment_id row = i
         /\ f_created_at row = now2.
Proof.
  intros env now1 now2 am text db [_ [_ Hr]] _ Ht1 Ht2 i db1 request db2.
  assert (Hvr : ((0 <? i)%Z && (1 <=? length text)
                 && (length text <=? 5000)) = true).
  { apply andb_true_iff. split; [apply andb_true_iff; split|].
    - apply Z.ltb_lt, next_amendment_id_positive.
    - apply Nat.leb_le, Ht1.
    - apply Nat.leb_le, Ht2. }
  assert (Hv : valid_feedback_create request = true) by exact Hvr.
  split; [exact Hv|].
  assert (Hq1 : exists a, query_amendment db1 i = Some a).
  { subst db1 i.
    change (snd (AppFullSystem.create_amendment now1 am db))
      with (snd (add_amendment db now1 (title am) (description am))).
    rewrite query_after_add_amendment, query_next_amendment_id, Z.eqb_refl.
    eexists. reflexivity. }
  destruct Hq1 as [a Hq1].
  assert (Hold : filter (fun f => (f_amendment_id f =? i)%Z) (feedback db)
                 = []).
  { apply filter_nothing. intros old Hin. apply Z.eqb_neq. intros E.
    apply (Hr old Hin). rewrite E. apply query_next_amendment_id. }
  subst db2. unfold AppFullSystem.post_feedback, route. rewrite Hv.
  cbn [snd]. unfold AppFullSystem.submit_feedback. subst request.
  cbn [amendment_id original_text].
  rewrite (first_amendment_found _ _ Hq1).
  destruct (AppFullSystem.analyze_sentiment env text)
    as [sentiment confidence].
  unfold endpoint_guard, add_feedback. cbn [fst snd].
  set (row := {| f_id := next_feedback_id db1;
                 f_amendment_id := i;
                 f_original_text := text;
                 f_summary := Some (AppFullSystem.summarize_text env text 15);
                 f_sentiment := Some sentiment;
                 f_sentiment_confidence := Some confidence;
                 f_created_at := now2 |}).
  set (db2 := {| amendments := amendments db1;
                 feedback := feedback db1 ++ [row] |}).
  assert (Hq2 : query_amendment db2 i = Some a) by exact Hq1.
  assert (Hrows : feedback_of db2 i = [row]).
  { unfold feedback_of. subst db2. cbn [feedback].
    change (feedback db1) with (feedback db).
    rewrite filter_app, Hold. subst row. cbn [filter app f_amendment_id].
    rewrite Z.eqb_refl. reflexivity. }
  unfold AppFullSystem.get_feedback.
  rewrite (first_amendment_found _ _ Hq2), Hrows.
  unfold make_FeedbackListResponse.
  assert (Hrow : forallb valid_feedback [row] = true).
  { cbn [forallb]. unfold valid_feedback. subst row.
    cbn [f_amendment_id f_original_text]. rewrite Hvr. reflexivity. }
  rewrite Hrow. cbn [fst snd].
  eexists. exists row. split; [reflexivity|]. repeat split.
Qed.

Lemma create_submit_list_round_trip_witness :
  exists response row,
    AppFullSystem.get_feedback 3
      (snd (AppFullSystem.post_feedback Fixtures.full_env_raising 400
              {| amendment_id := 3; original_text := lit "a clear draft" |}
              (snd (AppFullSystem.create_amendment 300 Samples.new_amendment
                      Samples.db2))))
    = (Ok response,
       snd (AppFullSystem.post_feedback Fixtures.full_env_raising 400
              {| amendment_id := 3; original_text := lit "a clear draft" |}
              (snd (AppFullSystem.create_amendment 300 Samples.new_amendment
                      Samples.db2))))
    /\ fl_feedback response = [row]
    /\ f_original_text row = lit "a clear draft".
Proof.
  assert (H1 : 1 <= length (lit "a clear draft")) by (cbn; lia).
  assert (H2 : length (lit "a clear draft") <= 5000) by (cbn; lia).
  destruct (@create_submit_list_round_trip Fixtures.full_env_raising 300%Z
              400%Z Samples.new_amendment (lit "a clear draft") Samples.db2
              samples_db2_well_formed eq_refl H1 H2)
    as [_ [response [row [Ha [Hb [Hc _]]]]]].
  exists response, row. split; [exact Ha|]. split; [exact Hb | exact Hc].
Defined.

(** ** Word counts of summaries *)

Lemma split_words (s : str) : Forall (fun w => is_word w = true) (split s).
Proof.
  induction s as [|c s IH]; [constructor|].
  destruct (isspace c) eqn:Hc.
  - cbn [split]. rewrite Hc. exact IH.
  - rewrite (@split_cons_word c s Hc).
    assert (H1 : is_word [c] = true) by (cbn; rewrite Hc; reflexivity).
    destruct s as [|c' s']; [repeat constructor; exact H1|].
    destruct (isspace c'); [constructor; [exact H1 | exact IH]|].
    destruct (split (c' :: s')) as [|w ws];
      [repeat constructor; exact H1|].
    inversion IH as [|w0 ws0 Hw Hws]; subst.
    constructor; [|exact Hws].
    destruct w as [|c0 w]; [discriminate|].
    cbn [is_word forallb] in *. rewrite Hc. exact Hw.
Qed.

Lemma is_word_nonspace (c : ascii) (w : str) :
  is_word (c :: w) = true ->
  isspace c = false /\ (w = [] \/ is_word w = true).
Proof.
  cbn [is_word forallb]. intros H. apply andb_true_iff in H as [Hc Hw].
  apply negb_true_iff in Hc. split; [exact Hc|].
  destruct w as [|c' w]; [left; reflexivity | right; exact Hw].
Qed.

Lemma split_word (w : str) : is_word w = true -> split w = [w].
Proof.
  induction w as [|c w IH]; [discriminate|].
  intros H. apply is_word_nonspace in H as [Hc [Hw | Hw]].
  - subst w. cbn [split]. rewrite Hc. reflexivity.
  - rewrite (@split_cons_word c w Hc). destruct w as [|c' w']; [discriminate|].
    destruct (is_word_nonspace _ _ Hw) as [Hc' _]. rewrite Hc'.
    rewrite (IH Hw). reflexivity.
Qed.

Lemma split_word_space (w : str) (c : ascii) (s : str) :
  is_word w = true -> isspace c = true ->
  split (w ++ c :: s) = w :: split s.
Proof.
  intros Hw Hsp. induction w as [|c0 w IH]; [discriminate|].
  apply is_word_nonspace in Hw as [Hc0 [Hw | Hw]].
  - subst w. cbn [app]. rewrite (@split_cons_word c0 (c :: s) Hc0). rewrite Hsp.
    cbn [split]. rewrite Hsp. reflexivity.
  - change ((c0 :: w) ++ c :: s) with (c0 :: (w ++ c :: s)).
    rewrite (@split_cons_word c0 (w ++ c :: s) Hc0).
    destruct w as [|c1 w']; [discriminate|].
    destruct (is_word_nonspace _ _ Hw) as [Hc1 _].
    cbn [app]. rewrite Hc1.
    change (c1 :: w' ++ c :: s) with ((c1 :: w') ++ c :: s).
    rewrite (IH Hw). reflexivity.
Qed.

(** Joining words with single spaces and splitting again gives the
    words back. *)
Lemma split_join (ws : list str) :
  Forall (fun w => is_word w = true) ws -> split (join (lit " ") ws) = ws.
Proof.
  induction ws as [|w ws IH]; [reflexivity|].
  intros H. inversion H as [|w0 ws0 Hw Hws]; subst.
  destruct ws as [|w2 ws].
  - cbn [join]. apply split_word, Hw.
  - change (join (lit " ") (w :: w2 :: ws))
      with (w ++ " "%char :: join (lit " ") (w2 :: ws)).
    rewrite split_word_space by (exact Hw || reflexivity).
    rewrite (IH Hws). reflexivity.
Qed.

Lemma join_app_last (sep : str) (ws : list str) (w t : str) :
  join sep (ws ++ [w]) ++ t = join sep (ws ++ [w ++ t]).
Proof.
  induction ws as [|x ws IH]; [reflexivity|].
  cbn [app join].
  destruct ws as [|y ws].
  - cbn [app join]. rewrite <- !app_assoc. reflexivity.
  - cbn [app] in *. rewrite <- !app_assoc. rewrite IH. reflexivity.
Qed.

Lemma is_word_app (w t : str) :
  is_word w = true -> forallb (fun c => negb (isspace c)) t = true ->
  is_word (w ++ t) = true.
Proof.
  destruct w as [|c w]; [discriminate|]. intros Hw Ht.
  change (is_word ((c :: w) ++ t))
    with (forallb (fun c0 => negb (isspace c0)) ((c :: w) ++ t)).
  change (is_word (c :: w))
    with (forallb (fun c0 => negb (isspace c0)) (c :: w)) in Hw.
  rewrite forallb_app, Hw, Ht. reflexivity.
Qed.

(** Appending the ellipsis to joined words lengthens the last word and
    adds none. *)
Lemma split_join_ellipsis (ws : list str) :
  Forall (fun w => is_word w = true) ws -> ws <> [] ->
  exists ws' w,
    ws = ws' ++ [w]
    /\ split (join (lit " ") ws ++ lit "...") = ws' ++ [w ++ lit "..."].
Proof.
  intros Hws Hne. destruct (exists_last Hne) as [ws' [w E]]. subst ws.
  exists ws', w. split; [reflexivity|].
  rewrite join_app_last. apply split_join.
  apply Forall_app in Hws as [H1 H2]. apply Forall_app. split; [exact H1|].
  inversion H2; subst. repeat constructor.
  apply is_word_app; [assumption | reflexivity].
Qed.

Lemma words_join_ellipsis (ws : list str) :
  Forall (fun w => is_word w = true) ws -> ws <> [] ->
  length (split (join (lit " ") ws ++ lit "...")) = length ws.
Proof.
  intros Hws Hne.
  destruct (split_join_ellipsis Hws Hne) as [ws' [w [E H]]].
  rewrite H, E, !length_app. reflexivity.
Qed.

Lemma firstn_words (n : nat) (s : str) :
  Forall (fun w => is_word w = true) (firstn n (split s)).
Proof.
  generalize (split_words s). generalize (split s). intros ws.
  revert n. induction ws as [|w ws IH]; intros n H.
  - destruct n; constructor.
  - destruct n; [constructor|]. inversion H; subst.
    cbn [firstn]. constructor; [assumption | apply IH; assumption].
Qed.

Lemma firstn_nonempty {A : Type} (n : nat) (l : list A) :
  1 <= n -> l <> [] -> firstn n l <> [].
Proof.
  destruct n; [lia|]. destruct l; [contradiction|]. discriminate.
Qed.

Lemma long_nonempty {A : Type} (n : nat) (l : list A) :
  n < length l -> l <> [].
Proof. destruct l; cbn; [lia | discriminate]. Qed.

(** [simple_summary] never returns more than [max_words] words: for a
    limit of at least one word its result has as many words as the text,
    up to the limit (the ellipsis is glued to the last word kept). *)
Theorem simple_summary_word_count :
  forall text max_words,
    1 <= max_words ->
    length (split (AppLiteToxicity.simple_summary text max_words))
    = Nat.min max_words (length (split text)).
Proof.
  intros text n Hn. unfold AppLiteToxicity.simple_summary.
  destruct (length (split text) <=? n) eqn:E.
  - apply Nat.leb_le in E. lia.
  - apply Nat.leb_gt in E.
    rewrite words_join_ellipsis.
    + rewrite length_firstn. reflexivity.
    + apply firstn_words.
    + apply firstn_nonempty; [exact Hn|]. apply (long_nonempty E).
Qed.

Lemma simple_summary_word_count_witness :
  length (split (AppLiteToxicity.simple_summary Fixtures.sixteen_words 15))
  = Nat.min 15 (length (split Fixtures.sixteen_words)).
Proof.
  apply simple_summary_word_count. lia.
Defined.

(** [app_full_system.summarize_text] keeps its word limit whatever the
    summarization model answers: the result never has more than
    [max_words] words, on the model path, on the fallback and for short
    texts alike. *)
Theorem full_system_summary_word_limit :
  forall env text max_words,
    length (split (AppFullSystem.summarize_text env text max_words))
    <= max_words.
Proof.
  intros env text n. unfold AppFullSystem.summarize_text.
  destruct (length (split text) <=? n) eqn:E.
  - apply Nat.leb_le in E. exact E.
  - assert (Hcut : forall s,
               length (split (join (lit " ") (firstn n (split s)))) <= n).
    { intros s. rewrite split_join by apply firstn_words.
      apply firstn_le_length. }
    destruct (AppFullSystem.summarizer env) as [f|]; [|apply Hcut].
    destruct (f text 90 20 false) as [summary|e]; apply Hcut.
Qed.

(** The words of a truncation: all words of a text of at most 50 words,
    else the first 50 with the ellipsis glued to the last. *)
Lemma truncation_words (text : str) :
  (length (split text) <= 50
   /\ AppCuda.truncation text = join (lit " ") (split text)
   /\ split (AppCuda.truncation text) = split text)
  \/ (50 < length (split text)
      /\ exists ws w,
           firstn 50 (split text) = ws ++ [w]
           /\ AppCuda.truncation text
              = join (lit " ") (ws ++ [w ++ lit "..."])
           /\ split (AppCuda.truncation text) = ws ++ [w ++ lit "..."]).
Proof.
  unfold AppCuda.truncation.
  destruct (50 <? length (split text)) eqn:E.
  - apply Nat.ltb_lt in E. right. split; [exact E|].
    destruct (@split_join_ellipsis (firstn 50 (split text))
                (firstn_words 50 text)) as [ws [w [H1 H2]]].
    { apply firstn_nonempty; [lia|]. apply (long_nonempty E). }
    exists ws, w. split; [exact H1|]. split; [|exact H2].
    rewrite H1. apply join_app_last.
  - apply Nat.ltb_ge in E. left. split; [exact E|].
    rewrite (firstn_all2 _ E), app_nil_r.
    split; [reflexivity|]. apply split_join, split_words.
Qed.

(** The truncation fallback of [app_cuda.py]: when the summarizer is
    not available, [summarize_text_cuda] returns a text of as many words
    as the input up to 50, and summarizing its own result changes
    nothing. *)
Theorem cuda_truncation_is_idempotent :
  forall env text,
    AppCuda.TRANSFORMERS_AVAILABLE env = false
    \/ AppCuda.summarizer env = None ->
    length (split (AppCuda.summarize_text_cuda env text))
    = Nat.min 50 (length (split text))
    /\ AppCuda.summarize_text_cuda env
         (AppCuda.summarize_text_cuda env text)
       = AppCuda.summarize_text_cuda env text.
Proof.
  intros env text H.
  assert (Hf : forall t, AppCuda.summarize_text_cuda env t
                         = AppCuda.truncation t).
  { intros t. unfold AppCuda.summarize_text_cuda.
    destruct (AppCuda.TRANSFORMERS_AVAILABLE env); [|reflexivity].
    destruct H as [H | H]; [discriminate|]. rewrite H. reflexivity. }
  rewrite !Hf.
  destruct (truncation_words text) as [[Hlen [Ht Hs]] | [Hlen [ws [w [Hw [Ht Hs]]]]]].
  - split; [rewrite Hs; lia|].
    unfold AppCuda.truncation at 1. rewrite Hs.
    assert (E : (50 <? length (split text)) = false)
      by (apply Nat.ltb_ge; exact Hlen).
    rewrite E, (firstn_all2 _ Hlen), app_nil_r. symmetry. exact Ht.
  - assert (L : length (ws ++ [w ++ lit "..."]) = 50).
    { rewrite length_app. cbn [length].
      pose proof (f_equal (@length str) Hw) as HL.
      rewrite length_firstn, length_app in HL. cbn [length] in HL. lia. }
    split; [rewrite Hs, L; lia|].
    unfold AppCuda.truncation at 1. rewrite Hs, L.
    rewrite firstn_all2 by lia. cbn [Nat.ltb Nat.leb]. rewrite app_nil_r.
    symmetry. exact Ht.
Qed.

Lemma cuda_truncation_is_idempotent_witness :
  length (split (AppCuda.summarize_text_cuda
                   {| AppCuda.TRANSFORMERS_AVAILABLE := false;
                      AppCuda.DETOXIFY_AVAILABLE := false;
                      AppCuda.detoxify_model := None;
                      AppCuda.sentiment_analyzer := None;
                      AppCuda.summarizer := None |} Samples.sixty_words))
  = 50.
Proof.
  apply (@cuda_truncation_is_idempotent
           {| AppCuda.TRANSFORMERS_AVAILABLE := false;
              AppCuda.DETOXIFY_AVAILABLE := false;
              AppCuda.detoxify_model := None;
              AppCuda.sentiment_analyzer := None;
              AppCuda.summarizer := None |} Samples.sixty_words).
  left. reflexivity.
Defined.

(** In fallback mode (models not loaded) [summarize_text_real] answers a
    text that is not blank with as many words as the text has, up to 50:
    it never adds words and never keeps more than 50. *)
Theorem production_fallback_word_count :
  forall env text,
    AppProduction.models_loaded env = false ->
    is_blank text = false ->
    length (split (AppProduction.summarize_text_real env text))
    = Nat.min 50 (length (split text)).
Proof.
  intros env text Hm Hb. unfold AppProduction.summarize_text_real.
  rewrite Hb, Hm, split_strip. cbn [negb].
  destruct (length (split text) <=? 15) eqn:E.
  - apply Nat.leb_le in E. rewrite split_strip. lia.
  - apply Nat.leb_gt in E. rewrite words_join_ellipsis.
    + apply length_firstn.
    + apply firstn_words.
    + apply firstn_nonempty; [lia|].
      apply (@long_nonempty _ 15). exact E.
Qed.

Lemma production_fallback_word_count_witness :
  length (split (AppProduction.summarize_text_real
                   Fixtures.production_env_unloaded Samples.sixty_words))
  = 50.
Proof.
  apply (@production_fallback_word_count Fixtures.production_env_unloaded
           Samples.sixty_words); reflexivity.
Defined.

(** ** Order of floats and the toxicity score *)

Ltac cmp_cases :=
  repeat match goal with
         | H : context [Z.compare ?a ?b] |- _ =>
             destruct (Z.compare_spec a b); subst
         | |- context [Z.compare ?a ?b] =>
             destruct (Z.compare_spec a b); subst
         | H : context [Pos.compare_cont Eq ?a ?b] |- _ =>
             change (Pos.compare_cont Eq a b) with (Pos.compare a b) in *;
             destruct (Pos.compare_spec a b); subst
         | |- context [Pos.compare_cont Eq ?a ?b] =>
             change (Pos.compare_cont Eq a b) with (Pos.compare a b) in *;
             destruct (Pos.compare_spec a b); subst
         end.

Lemma SFltb_trans (a b c : spec_float) :
  SFltb a b = true -> SFltb b c = true -> SFltb a c = true.
Proof.
  unfold SFltb.
  destruct a as [[]|[]| |[] ma ea], b as [[]|[]| |[] mb eb],
    c as [[]|[]| |[] mc ec];
    cbn; try discriminate; try reflexivity; intros H1 H2;
    cmp_cases; cbn in *; try discriminate; try reflexivity; try lia.
Qed.

(** What lies below [x] lies below every number that is not below [x]. *)
Lemma SFltb_below_bound (t x m : spec_float) :
  SFltb t x = true -> SFltb m x = false -> SFeqb m m = true ->
  SFltb t m = true.
Proof.
  unfold SFltb, SFeqb.
  destruct t as [[]|[]| |[] mt et], x as [[]|[]| |[] mx ex],
    m as [[]|[]| |[] mm em];
    cbn; try discriminate; try reflexivity; intros H1 H2 H3;
    cmp_cases; cbn in *; try discriminate; try reflexivity; try lia.
Qed.

Lemma float_ltb_trans (a b c : float) :
  PrimFloat.ltb a b = true -> PrimFloat.ltb b c = true ->
  PrimFloat.ltb a c = true.
Proof. rewrite !ltb_spec. apply SFltb_trans. Qed.

Lemma float_ltb_below_bound (t x m : float) :
  PrimFloat.ltb t x = true -> PrimFloat.ltb m x = false ->
  PrimFloat.eqb m m = true -> PrimFloat.ltb t m = true.
Proof. rewrite !ltb_spec, eqb_spec. apply SFltb_below_bound. Qed.

(** The running maximum of [max]: started from a number and fed numbers,
    it ends on a number that none of them, nor the start, exceeds. *)
Lemma running_max_bound (xs : list float) (init : float) :
  PrimFloat.eqb init init = true ->
  forallb (fun x => PrimFloat.eqb x x) xs = true ->
  let m := fold_left (fun m y => if PrimFloat.ltb m y then y else m) xs init
  in PrimFloat.eqb m m = true
     /\ PrimFloat.ltb m init = false
     /\ (forall x, In x xs -> PrimFloat.ltb m x = false).
Proof.
  revert init. induction xs as [|y xs IH]; intros init Hi Hxs;
    cbn [fold_left].
  - cbv zeta. split; [exact Hi|]. split; [|intros x []].
    destruct (PrimFloat.ltb init init) eqn:E; [|reflexivity].
    rewrite ltb_spec in E. rewrite eqb_spec in Hi.
    unfold SFltb, SFeqb in *.
    destruct (SFcompare (Prim2SF init) (Prim2SF init)) as [[]|];
      discriminate.
  - cbn [forallb] in Hxs. apply andb_true_iff in Hxs as [Hy Hxs].
    set (init' := if PrimFloat.ltb init y then y else init).
    assert (Hi' : PrimFloat.eqb init' init' = true)
      by (subst init'; destruct (PrimFloat.ltb init y); assumption).
    destruct (IH init' Hi' Hxs) as [Hm [Hb Hall]].
    cbv zeta in *.
    set (m := fold_left (fun m y => if PrimFloat.ltb m y then y else m)
                xs init') in *.
    assert (Hinit : PrimFloat.ltb m init = false
                    /\ PrimFloat.ltb m y = false).
    { subst init'. destruct (PrimFloat.ltb init y) eqn:E.
      - split; [|exact Hb].
        destruct (PrimFloat.ltb m init) eqn:F; [|reflexivity].
        rewrite (float_ltb_trans F E) in Hb. discriminate.
      - split; [exact Hb|].
        destruct (PrimFloat.ltb m y) eqn:F; [|reflexivity].
        rewrite (float_ltb_below_bound F E Hi) in Hb. discriminate. }
    destruct Hinit as [H1 H2].
    split; [exact Hm|]. split; [exact H1|].
    intros x [Hx | Hx]; [subst x; exact H2 | exact (Hall x Hx)].
Qed.

Lemma running_max_in (xs : list float) (init : float) :
  In (fold_left (fun m y => if PrimFloat.ltb m y then y else m) xs init)
     (init :: xs).
Proof.
  revert init. induction xs as [|y xs IH]; intros init; cbn [fold_left].
  - left. reflexivity.
  - destruct (IH (if PrimFloat.ltb init y then y else init)) as [H | H].
    + destruct (PrimFloat.ltb init y); [right; left | left]; exact H.
    + right. right. exact H.
Qed.

(** The value of [max] is one of the items. *)
Lemma py_max_in (xs : list float) (m : float) :
  py_max xs = Ok m -> In m xs.
Proof.
  destruct xs as [|x xs]; [discriminate|]. cbn [py_max].
  intros H. injection H as H. subst m. apply running_max_in.
Qed.

Lemma dict_getitem_in {V : Type} (d : dict V) (k : str) (v : V) :
  dict_getitem d k = Ok v -> In v (dict_values d).
Proof.
  unfold dict_getitem, dict_values. intros H.
  destruct (find (fun kv => PyStr.eqb (fst kv) k) d) as [kv|] eqn:E;
    [|discriminate].
  injection H as H. subst v. apply find_some in E as [E _].
  apply in_map. exact E.
Qed.

(** A comment is rejected only on evidence: a toxic verdict of either
    gate means that the classifier was available and answered, that the
    reported score is one of the scores it gave (in [app_cuda.py] the
    one under [toxicity]), and that this score is above 0.6. *)
Theorem toxic_verdict_has_a_score_above_threshold :
  (forall env text,
      fst (AppLiteToxicity.detect_toxicity env text) = true ->
      AppLiteToxicity.DETOXIFY_AVAILABLE env = true
      /\ exists predict scores,
           AppLiteToxicity.Detoxify env (lit "original") = Ok predict
           /\ predict text = Ok scores
           /\ In (snd (AppLiteToxicity.detect_toxicity env text))
                (dict_values scores)
           /\ PrimFloat.ltb 0.6 (snd (AppLiteToxicity.detect_toxicity env
                                        text)) = true)
  /\ (forall env text,
      fst (AppCuda.detect_toxicity_cuda env text) = true ->
      AppCuda.DETOXIFY_AVAILABLE env = true
      /\ exists predict scores,
           AppCuda.detoxify_model env = Some predict
           /\ predict text = Ok scores
           /\ dict_getitem scores (lit "toxicity")
              = Ok (snd (AppCuda.detect_toxicity_cuda env text))
           /\ PrimFloat.ltb 0.6 (snd (AppCuda.detect_toxicity_cuda env text))
              = true).
Proof.
  split; intros env text.
  - unfold AppLiteToxicity.detect_toxicity.
    destruct (AppLiteToxicity.DETOXIFY_AVAILABLE env); cbn [negb];
      [|discriminate].
    destruct (AppLiteToxicity.Detoxify env (lit "original")) as [predict|e];
      cbn [bind]; [|discriminate].
    destruct (predict text) as [scores|e] eqn:Hp; cbn [bind];
      [|discriminate].
    destruct (py_max (dict_values scores)) as [m|e] eqn:Hm; cbn [bind];
      [|discriminate].
    cbn [fst snd]. intros H. split; [reflexivity|].
    exists predict, scores. repeat split; try assumption.
    apply py_max_in, Hm.
  - unfold AppCuda.detect_toxicity_cuda.
    destruct (AppCuda.DETOXIFY_AVAILABLE env); [|discriminate].
    destruct (AppCuda.detoxify_model env) as [predict|]; [|discriminate].
    destruct (predict text) as [scores|e] eqn:Hp; cbn [bind];
      [|discriminate].
    destruct (dict_getitem scores (lit "toxicity")) as [s|e] eqn:Hs;
      cbn [bind]; [|discriminate].
    cbn [fst snd]. intros H. split; [reflexivity|].
    exists predict, scores. repeat split; assumption.
Qed.

Lemma toxic_verdict_has_a_score_above_threshold_witness :
  AppLiteToxicity.DETOXIFY_AVAILABLE Samples.lite_env_scores = true
  /\ exists predict scores,
       AppLiteToxicity.Detoxify Samples.lite_env_scores (lit "original")
       = Ok predict
       /\ predict (lit "a comment") = Ok scores
       /\ In (snd (AppLiteToxicity.detect_toxicity Samples.lite_env_scores
                     (lit "a comment")))
            (dict_values scores)
       /\ PrimFloat.ltb 0.6
            (snd (AppLiteToxicity.detect_toxicity Samples.lite_env_scores
                    (lit "a comment")))
          = true.
Proof.
  apply (proj1 toxic_verdict_has_a_score_above_threshold
           Samples.lite_env_scores (lit "a comment")).
  reflexivity.
Defined.

(** On items none of which is NaN, [max] answers an item that no item
    exceeds, and answers above a threshold as soon as one item is. *)
Lemma py_max_upper_bound (xs : list float) (m : float) :
  forallb (fun x => PrimFloat.eqb x x) xs = true ->
  py_max xs = Ok m ->
  PrimFloat.eqb m m = true
  /\ forall x, In x xs -> PrimFloat.ltb m x = false.
Proof.
  destruct xs as [|x0 xs]; [discriminate|]. cbn [py_max forallb].
  intros Hn H. injection H as H. subst m.
  apply andb_true_iff in Hn as [H0 Hn].
  destruct (@running_max_bound xs x0 H0 Hn) as [Hm [Hb Hall]].
  split; [exact Hm|].
  intros x [Hx | Hx]; [subst x; exact Hb | exact (Hall x Hx)].
Qed.

Lemma py_max_above (xs : list float) (t x : float) :
  forallb (fun x => PrimFloat.eqb x x) xs = true ->
  In x xs -> PrimFloat.ltb t x = true ->
  exists m, py_max xs = Ok m /\ PrimFloat.ltb t m = true.
Proof.
  intros Hn Hx Hlt. destruct (py_max xs) as [m|e] eqn:Hm.
  - exists m. split; [reflexivity|].
    destruct (py_max_upper_bound xs Hn Hm) as [Hmm Hup].
    exact (float_ltb_below_bound Hlt (Hup x Hx) Hmm).
  - destruct xs; [destruct Hx | discriminate].
Qed.

(** When Detoxify answers scores none of which is NaN, the gate of
    [app_lite_toxicity.py] rejects the comment exactly when some
    category scores above 0.6, and no category exceeds the score it
    reports. *)
Theorem lite_gate_rejects_iff_some_category_above_threshold :
  forall env text predict scores,
    AppLiteToxicity.DETOXIFY_AVAILABLE env = true ->
    AppLiteToxicity.Detoxify env (lit "original") = Ok predict ->
    predict text = Ok scores ->
    forallb (fun x => PrimFloat.eqb x x) (dict_values scores) = true ->
    (fst (AppLiteToxicity.detect_toxicity env text) = true
     <-> exists x, In x (dict_values scores) /\ PrimFloat.ltb 0.6 x = true)
    /\ (forall x, In x (dict_values scores) ->
                  PrimFloat.ltb
                    (snd (AppLiteToxicity.detect_toxicity env text)) x
                  = false).
Proof.
  intros env text predict scores Ha Hd Hp Hn.
  unfold AppLiteToxicity.detect_toxicity. rewrite Ha, Hd. cbn [negb bind].
  rewrite Hp. cbn [bind].
  destruct (py_max (dict_values scores)) as [m|e] eqn:Hm; cbn [bind fst snd].
  - destruct (py_max_upper_bound _ Hn Hm) as [Hmm Hup].
    split; [|exact Hup]. split.
    + intros H. exists m. split; [exact (py_max_in _ Hm) | exact H].
    + intros [x [Hx Hlt]]. exact (float_ltb_below_bound Hlt (Hup x Hx) Hmm).
  - destruct (dict_values scores) as [|x0 xs]; [|discriminate].
    split; [|intros x []]. split; [discriminate | intros [x [[] _]]].
Qed.

Lemma lite_gate_rejects_iff_some_category_above_threshold_witness :
  fst (AppLiteToxicity.detect_toxicity Samples.lite_env_scores
         (lit "a comment"))
  = true
  <-> exists x, In x (dict_values Samples.category_scores)
                /\ PrimFloat.ltb 0.6 x = true.
Proof.
  apply (@lite_gate_rejects_iff_some_category_above_threshold
           Samples.lite_env_scores (lit "a comment")
           (fun _ => Ok Samples.category_scores) Samples.category_scores);
    reflexivity.
Defined.

(** On the same classifier answer without NaN, whatever the gate of
    [app_cuda.py] rejects the gate of [app_lite_toxicity.py] rejects
    too: the first reads the [toxicity] category only, the second the
    maximum over all categories. *)
Theorem lite_gate_rejects_what_cuda_gate_rejects :
  forall lite cuda text predict scores,
    AppLiteToxicity.DETOXIFY_AVAILABLE lite = true ->
    AppLiteToxicity.Detoxify lite (lit "original") = Ok predict ->
    AppCuda.detoxify_model cuda = Some predict ->
    predict text = Ok scores ->
    forallb (fun x => PrimFloat.eqb x x) (dict_values scores) = true ->
    fst (AppCuda.detect_toxicity_cuda cuda text) = true ->
    fst (AppLiteToxicity.detect_toxicity lite text) = true.
Proof.
  intros lite cuda text predict scores Ha Hd Hc Hp Hn.
  unfold AppCuda.detect_toxicity_cuda, AppLiteToxicity.detect_toxicity.
  rewrite Ha, Hd, Hc. cbn [negb bind]. rewrite Hp. cbn [bind].
  destruct (AppCuda.DETOXIFY_AVAILABLE cuda); [|discriminate].
  destruct (dict_getitem scores (lit "toxicity")) as [s|e] eqn:Hs;
    cbn [bind fst]; [|discriminate].
  intros Ht.
  destruct (@py_max_above (dict_values scores) 0.6%float s Hn
              (dict_getitem_in _ _ Hs) Ht) as [m [Hm Hlt]].
  rewrite Hm. cbn [bind fst]. exact Hlt.
Qed.

Lemma lite_gate_rejects_what_cuda_gate_rejects_witness :
  fst (AppLiteToxicity.detect_toxicity (Fixtures.lite_env 0.75)
         (lit "a comment"))
  = true.
Proof.
  apply (@lite_gate_rejects_what_cuda_gate_rejects (Fixtures.lite_env 0.75)
           (Fixtures.cuda_env 0.75) (lit "a comment")
           (Fixtures.scoring 0.75)
           [(lit "toxicity", 0.75%float); (lit "insult", 0.01%float)]);
    reflexivity.
Defined.

(** ** Sentiment labels *)

(** Closes a goal that assumes two different labels equal. *)
Ltac absurd_label :=
  exfalso;
  match goal with
  | H : lit _ = lit _ |- _ => vm_compute in H; discriminate
  end.

Lemma is_blank_forallb (t : str) : is_blank t = forallb isspace t.
Proof.
  destruct (is_blank t) eqn:B.
  - symmetry. apply is_blank_spaces, B.
  - destruct (forallb isspace t) eqn:F; [|reflexivity].
    apply is_blank_spaces in F. congruence.
Qed.

Lemma forallb_isspace_lower (t : str) :
  forallb isspace (lower t) = forallb isspace t.
Proof.
  unfold lower. induction t as [|c t IH]; [reflexivity|].
  cbn [map forallb]. rewrite isspace_lower_char, IH. reflexivity.
Qed.

(** Lowering a text lowers its words one by one. *)
Lemma split_lower (t : str) : split (lower t) = map lower (split t).
Proof.
  induction t as [|c t IH]; [reflexivity|].
  change (lower (c :: t)) with (lower_char c :: lower t).
  destruct (isspace c) eqn:Hc.
  - cbn [split]. rewrite isspace_lower_char, Hc. exact IH.
  - assert (Hc' : isspace (lower_char c) = false)
      by (rewrite isspace_lower_char; exact Hc).
    rewrite (@split_cons_word _ (lower t) Hc'), (@split_cons_word _ t Hc).
    rewrite IH. destruct t as [|c' t']; [reflexivity|].
    change (lower (c' :: t')) with (lower_char c' :: lower t').
    cbv iota. rewrite isspace_lower_char.
    destruct (isspace c'); [reflexivity|].
    destruct (split (c' :: t')); reflexivity.
Qed.

(** The keyword classifiers read the text through [lower] only: two
    texts that differ in letter case alone get the same label from
    [predict_sentiment], and the same label and confidence from
    [simple_sentiment] and from the fallback of [analyze_sentiment]. *)
Theorem keyword_sentiment_ignores_case :
  forall t1 t2,
    lower t1 = lower t2 ->
    AppEnhanced.predict_sentiment t1 = AppEnhanced.predict_sentiment t2
    /\ AppLiteToxicity.simple_sentiment t1
       = AppLiteToxicity.simple_sentiment t2
    /\ AppFullSystem.keyword_fallback t1 = AppFullSystem.keyword_fallback t2.
Proof.
  intros t1 t2 H. split; [|split].
  - unfold AppEnhanced.predict_sentiment.
    assert (Hb : is_blank t1 = is_blank t2).
    { rewrite !is_blank_forallb, <- (forallb_isspace_lower t1),
        <- (forallb_isspace_lower t2), H. reflexivity. }
    assert (Hw : length (split t1) = length (split t2)).
    { rewrite <- (length_map lower (split t1)),
        <- (length_map lower (split t2)), <- !split_lower, H.
      reflexivity. }
    rewrite Hb, Hw, H. reflexivity.
  - unfold AppLiteToxicity.simple_sentiment. rewrite H. reflexivity.
  - unfold AppFullSystem.keyword_fallback. rewrite H. reflexivity.
Qed.

Lemma keyword_sentiment_ignores_case_witness :
  AppEnhanced.predict_sentiment (lit "GREAT Job On This Amendment")
  = AppEnhanced.predict_sentiment (lit "great job on this amendment").
Proof.
  apply (@keyword_sentiment_ignores_case
           (lit "GREAT Job On This Amendment")
           (lit "great job on this amendment")).
  reflexivity.
Defined.

(** What each answer of [predict_sentiment] means in terms of the
    weighted counts: POSITIVE exactly when the positive count is the
    larger one (the positive tie-break of the source can never fire),
    NEGATIVE when the negative count is larger or when a text of more
    than 3 words ties with hits, NEUTRAL on the remaining ties. *)
Theorem predict_sentiment_label_meaning :
  forall text,
    let pos := KeywordSpec.weighted_count AppEnhanced.positive_words
                 AppEnhanced.positive_phrases text in
    let neg := KeywordSpec.weighted_count AppEnhanced.negative_words
                 AppEnhanced.negative_phrases text in
    (AppEnhanced.predict_sentiment text = lit "POSITIVE" <-> neg < pos)
    /\ (AppEnhanced.predict_sentiment text = lit "NEGATIVE"
        <-> pos < neg \/ (pos = neg /\ 3 < length (split text) /\ 0 < neg))
    /\ (AppEnhanced.predict_sentiment text = lit "NEUTRAL"
        <-> pos = neg /\ (length (split text) <= 3 \/ neg = 0)).
Proof.
  intros text. unfold AppEnhanced.predict_sentiment.
  unfold KeywordSpec.weighted_count, KeywordSpec.hits. cbv zeta.
  destruct (is_blank text) eqn:B.
  - pose proof (lower_spaces _ (proj1 (is_blank_spaces text) B)) as Hl.
    rewrite !(count_in_spaces _ _ Hl) by reflexivity.
    rewrite (is_blank_split _ B). cbn [length Nat.mul Nat.add].
    repeat split; intros; try lia; try reflexivity; absurd_label.
  - rewrite !count_loop_weight, !Nat.add_0_l.
    generalize (1 * count_in AppEnhanced.positive_words (lower text)
                + 2 * count_in AppEnhanced.positive_phrases (lower text)).
    generalize (1 * count_in AppEnhanced.negative_words (lower text)
                + 2 * count_in AppEnhanced.negative_phrases (lower text)).
    generalize (length (split text)).
    intros k n p.
    destruct (Nat.ltb_spec n p); [|destruct (Nat.ltb_spec p n);
      [|destruct (Nat.leb_spec k 3); [|destruct (Nat.ltb_spec 0 n);
        [|destruct (Nat.ltb_spec 0 p)]]]];
      repeat split; intros; try lia; try reflexivity; absurd_label.
Qed.

(** The model-backed classifiers keep to their labels whatever the
    model answers: [predict_sentiment_real] returns POSITIVE, NEGATIVE
    or NEUTRAL; [analyze_sentiment] returns positive, negative or
    neutral, and neutral only with confidence 0.5, that is only through
    its keyword fallback. *)
Theorem sentiment_labels_are_closed :
  (forall env classify text,
      In (AppProduction.predict_sentiment_real env classify text)
        [lit "POSITIVE"; lit "NEGATIVE"; lit "NEUTRAL"])
  /\ (forall env text,
      In (fst (AppFullSystem.analyze_sentiment env text))
        [lit "positive"; lit "negative"; lit "neutral"]
      /\ (fst (AppFullSystem.analyze_sentiment env text) = lit "neutral" ->
          snd (AppFullSystem.analyze_sentiment env text) = 0.5%float)).
Proof.
  split.
  - intros env classify text. unfold AppProduction.predict_sentiment_real.
    destruct (negb (AppProduction.models_loaded env) || is_blank text);
      [right; right; left; reflexivity|].
    destruct (classify text) as [label|e]; [|right; right; left; reflexivity].
    destruct (PyStr.eqb label (lit "POSITIVE")); [left; reflexivity|].
    destruct (PyStr.eqb label (lit "NEGATIVE"));
      [right; left; reflexivity | right; right; left; reflexivity].
  - intros env text.
    assert (Hk : In (fst (AppFullSystem.keyword_fallback text))
                   [lit "positive"; lit "negative"; lit "neutral"]
                 /\ (fst (AppFullSystem.keyword_fallback text)
                     = lit "neutral" ->
                     snd (AppFullSystem.keyword_fallback text) = 0.5%float)).
    { unfold AppFullSystem.keyword_fallback. cbv zeta.
      destruct (_ <? _); [|destruct (_ <? _)]; cbn [fst snd].
      - split; [left; reflexivity|]. intros H. vm_compute in H. discriminate.
      - split; [right; left; reflexivity|].
        intros H. vm_compute in H. discriminate.
      - split; [right; right; left; reflexivity | reflexivity]. }
    unfold AppFullSystem.analyze_sentiment.
    destruct (AppFullSystem.sentiment_model env) as [model|]; [|exact Hk].
    destruct (model text) as [[predicted_class confidence]|e]; [|exact Hk].
    destruct (predicted_class =? 1)%Z; cbn [fst snd].
    + split; [left; reflexivity|]. intros H. vm_compute in H. discriminate.
    + split; [right; left; reflexivity|].
      intros H. vm_compute in H. discriminate.
Qed.

(** The mock analysis of [app_working.py]: the row it stores has a
    summary of at most 112 characters (the text itself when that has at
    most 100), a sentiment that is positive or neutral and never
    negative, and the confidence 0.85. *)
Theorem working_mock_analysis_is_bounded :
  forall now fb db a,
    query_amendment db (amendment_id fb) = Some a ->
    exists row summary sentiment,
      feedback (snd (AppWorking.submit_feedback now fb db))
      = feedback db ++ [row]
      /\ f_summary row = Some summary
      /\ length summary <= 112
      /\ (length (original_text fb) <= 100 -> summary = original_text fb)
      /\ f_sentiment row = Some sentiment
      /\ (sentiment = lit "positive" \/ sentiment = lit "neutral")
      /\ f_sentiment_confidence row = Some 0.85%float.
Proof.
  intros now fb db a Hq. unfold AppWorking.submit_feedback. unfold first_amendment.
    rewrite Hq.
  eexists. eexists. eexists.
  split; [reflexivity|]. cbn [f_summary f_sentiment f_sentiment_confidence].
  split; [reflexivity|]. split; [|split; [|split; [reflexivity|split]]].
  - destruct (100 <? length (original_text fb)) eqn:E.
    + rewrite !length_app. unfold take. rewrite length_firstn.
      apply Nat.ltb_lt in E. cbn [lit list_ascii_of_string length]. lia.
    + apply Nat.ltb_ge in E. lia.
  - intros H. apply Nat.ltb_ge in H. rewrite H. reflexivity.
  - destruct (contains (lit "good") (lower (original_text fb))
              || contains (lit "great") (lower (original_text fb)));
      [left | right]; reflexivity.
  - reflexivity.
Qed.

Lemma working_mock_analysis_is_bounded_witness :
  exists row summary sentiment,
    feedback (snd (AppWorking.submit_feedback 300
                     (Fixtures.request 1 "you are all fools") Samples.db2))
    = feedback Samples.db2 ++ [row]
    /\ f_summary row = Some summary
    /\ length summary <= 112
    /\ f_sentiment row = Some sentiment
    /\ sentiment = lit "neutral".
Proof.
  destruct (@working_mock_analysis_is_bounded 300%Z
              (Fixtures.request 1 "you are all fools") Samples.db2 _ eq_refl)
    as [row [summary [sentiment [H1 [H2 [H3 [_ [H5 _]]]]]]]].
  exists row, summary, sentiment.
  split; [exact H1|]. split; [exact H2|]. split; [exact H3|].
  split; [exact H5|].
  cbv in H1. injection H1 as H1. subst row.
  cbv in H5. injection H5 as H5. symmetry. exact H5.
Defined.

Lemma sentiment_labels_are_closed_witness :
  snd (AppFullSystem.analyze_sentiment Fixtures.full_env_raising
         (lit "an amendment"))
  = 0.5%float.
Proof.
  apply (proj2 (proj2 sentiment_labels_are_closed Fixtures.full_env_raising
                  (lit "an amendment"))).
  reflexivity.
Defined.

(** ** What the summarizer is asked *)

Lemma limit_input_length (t : str) : length (limit_input t) <= 1000.
Proof.
  unfold limit_input, take. destruct (1000 <? length t) eqn:E.
  - apply firstn_le_length.
  - apply Nat.ltb_ge in E. exact E.
Qed.

(** [summarize_text_real] and [app.summarize_text] consult the
    summarization model only on inputs of at most 1000 characters, with
    the fixed generation bounds (90, 20, no sampling) and (100, 20, no
    sampling): two models that agree on such calls give the same
    summary for every text. *)
Theorem summarizer_sees_bounded_input :
  (forall env1 env2 text,
      AppProduction.models_loaded env1 = AppProduction.models_loaded env2 ->
      (forall t, length t <= 1000 ->
                 AppProduction.call_summarizer env1 t 90 20 false
                 = AppProduction.call_summarizer env2 t 90 20 false) ->
      AppProduction.summarize_text_real env1 text
      = AppProduction.summarize_text_real env2 text)
  /\ (forall env1 env2 text,
      (forall t, length t <= 1000 ->
                 App.summarizer env1 t 100 20 false
                 = App.summarizer env2 t 100 20 false) ->
      App.summarize_text env1 text = App.summarize_text env2 text).
Proof.
  split.
  - intros env1 env2 text Hm H. unfold AppProduction.summarize_text_real.
    rewrite Hm, (H _ (limit_input_length (strip text))). reflexivity.
  - intros env1 env2 text H. unfold App.summarize_text.
    rewrite (H _ (limit_input_length (strip text))). reflexivity.
Qed.

Lemma summarizer_sees_bounded_input_witness :
  AppProduction.summarize_text_real Samples.production_env_echo
    Fixtures.sixteen_words
  = AppProduction.summarize_text_real Samples.production_env_echo_short
      Fixtures.sixteen_words.
Proof.
  apply (proj1 summarizer_sees_bounded_input Samples.production_env_echo
           Samples.production_env_echo_short Fixtures.sixteen_words).
  - reflexivity.
  - intros t Ht. unfold AppProduction.call_summarizer. cbn.
    apply Nat.leb_le in Ht. rewrite Ht. reflexivity.
Defined.

(** Beyond the store's 64-bit range the lookup itself raises, and the
    submission is answered with the 500 error of the [except] clause;
    the store is unchanged. *)
Example unknown_amendment_beyond_range :
  valid_feedback_create (Fixtures.request (2 ^ 63) "a good amendment") = true
  /\ AppLiteToxicity.post_feedback (Fixtures.lite_env 0.1) 200
       (Fixtures.request (2 ^ 63) "a good amendment") Fixtures.db1
     = (Handled (Raise (HTTPException 500 (lit "Failed to submit feedback"))),
        Fixtures.db1).
Proof. split; reflexivity. Qed.
